(** * anon-api: the administrative read API (src/api.js)

    A shallow embedding of the Express handlers of [src/api.js] and the
    properties of its query construction, pagination, identifier
    resolution, dashboard fallback, activity merge, error handling and
    connection scoping.

    Conventions of the embedding.
    - JavaScript strings are [string]s whose characters are the code units
      0..255; numbers that the handlers compute are integers and are
      modelled exactly by [Z] (no rounding to doubles), with [NaN] and the
      infinities as separate values; model and code agree on the integers
      up to 2^53 in magnitude, and a statement that asserts the number
      read from a text carries that bound. [Math.round] of a numeric
      string goes through the Number value of the string.
    - The database and the [pg] client are the environment: a [world]
      answers [connect] and each [query] as a function of everything that
      happened before on the connection.
    - [async] handlers are run sequentially; [Promise.all] submits every
      query of its array, in order, and rejects with the first failure. *)

From Stdlib Require Import ZArith QArith Qround List String Ascii Bool Lia.
From Stdlib Require Import Permutation Sorted DecimalString DecimalPos.
Import ListNotations.

Open Scope string_scope.
Open Scope Z_scope.

(* ================================================================== *)
(** * JavaScript values and the built-ins the handlers call            *)
(* ================================================================== *)

Module JS.

(** ** Strings *)

Definition startsWith (s prefix : string) : bool := String.prefix prefix s.

Fixpoint drop (n : nat) (s : string) : string :=
  match n, s with
  | O, _ => s
  | S n', String _ r => drop n' r
  | S _, EmptyString => EmptyString
  end.

Definition isEmpty (s : string) : bool :=
  match s with EmptyString => true | String _ _ => false end.

(** [StrWhiteSpaceChar]: TAB, LF, VT, FF, CR, SP and NBSP are the white
    space and line terminator code units below 256. *)
Definition isStrWhiteSpaceChar (c : ascii) : bool :=
  let n := nat_of_ascii c in
  (Nat.eqb n 9 || Nat.eqb n 10 || Nat.eqb n 11 || Nat.eqb n 12 ||
   Nat.eqb n 13 || Nat.eqb n 32 || Nat.eqb n 160)%bool.

Fixpoint trimStart (s : string) : string :=
  match s with
  | String c r => if isStrWhiteSpaceChar c then trimStart r else s
  | EmptyString => EmptyString
  end.

Fixpoint trimEnd (s : string) : string :=
  match s with
  | String c r =>
      let r' := trimEnd r in
      if (isStrWhiteSpaceChar c && isEmpty r')%bool then EmptyString
      else String c r'
  | EmptyString => EmptyString
  end.

Definition trim (s : string) : string := trimEnd (trimStart s).

(** [String.prototype.includes]. *)
Fixpoint includes (s sub : string) : bool :=
  (startsWith s sub
   || match s with
      | String _ r => includes r sub
      | EmptyString => false
      end)%bool.

(** Value of a character as a digit of some radix up to 16. *)
Definition digitValue (c : ascii) : option Z :=
  let n := Z.of_nat (nat_of_ascii c) in
  if (48 <=? n) && (n <=? 57) then Some (n - 48)
  else if (97 <=? n) && (n <=? 102) then Some (n - 87)
  else if (65 <=? n) && (n <=? 70) then Some (n - 55)
  else None.

Definition radixDigit (R : Z) (c : ascii) : option Z :=
  match digitValue c with
  | Some d => if d <? R then Some d else None
  | None => None
  end.

(** The longest prefix of [s] made of radix-[R] digits, and what follows. *)
Fixpoint spanDigits (R : Z) (s : string) : list Z * string :=
  match s with
  | String c r =>
      match radixDigit R c with
      | Some d => let (ds, rest) := spanDigits R r in (d :: ds, rest)
      | None => ([], s)
      end
  | EmptyString => ([], EmptyString)
  end.

Definition digitsValue (R : Z) (ds : list Z) : Z :=
  fold_left (fun acc d => acc * R + d) ds 0.

(** [Number.prototype.toString] on an integer (below 1e21 in magnitude). *)
Definition decimal (n : Z) : string := NilZero.string_of_int (Z.to_int n).

(** ** Numbers *)

Inductive number : Type :=
| NaN
| Infinity (negative : bool)
| Int (z : Z).

Definition ofParse (r : option Z) : number :=
  match r with Some z => Int z | None => NaN end.

(** ** [parseInt(string)] with no radix argument (ECMA-262, 19.2.5).
    [None] is NaN. The result is the integer that the digits spell; the
    code's is the Number value of that integer, which is the same up to
    2^53. *)
Definition parseInt (inputString : string) : option Z :=
  let str := trimStart inputString in
  let sign := if startsWith str "-" then -1 else 1 in
  let str :=
    if (startsWith str "+" || startsWith str "-")%bool then drop 1 str else str in
  let '(R, str) :=
    if (startsWith str "0x" || startsWith str "0X")%bool then (16, drop 2 str)
    else (10, str) in
  let '(ds, _) := spanDigits R str in
  match ds with
  | [] => None
  | _ :: _ => Some (sign * digitsValue R ds)
  end.

(** ** [StringToNumber] (ECMA-262, 7.1.4.1.1), with exact rational value. *)

Inductive numeric : Type :=
| NNaN
| NInf (negative : bool)
| NRat (q : Q).

Definition pow10 (e : Z) : Q :=
  if 0 <=? e then inject_Z (10 ^ e) else Qinv (inject_Z (10 ^ (- e))).

(** [NonDecimalIntegerLiteral]: 0x, 0o or 0b and at least one digit, to
    the end of the string. *)
Definition nonDecimalLiteral (s : string) : option Z :=
  let radix :=
    if (startsWith s "0x" || startsWith s "0X")%bool then Some 16
    else if (startsWith s "0o" || startsWith s "0O")%bool then Some 8
    else if (startsWith s "0b" || startsWith s "0B")%bool then Some 2
    else None in
  match radix with
  | Some R =>
      match spanDigits R (drop 2 s) with
      | ((_ :: _) as ds, EmptyString) => Some (digitsValue R ds)
      | _ => None
      end
  | None => None
  end.

(** [ExponentPart] to the end of the string: e or E, an optional sign and
    at least one decimal digit. The empty string is the absent exponent. *)
Definition exponentPart (s : string) : option Z :=
  match s with
  | EmptyString => Some 0
  | String c r =>
      if (Ascii.eqb c "e" || Ascii.eqb c "E")%bool then
        let sign := if startsWith r "-" then -1 else 1 in
        let r := if (startsWith r "+" || startsWith r "-")%bool then drop 1 r else r in
        match spanDigits 10 r with
        | ((_ :: _) as ds, EmptyString) => Some (sign * digitsValue 10 ds)
        | _ => None
        end
      else None
  end.

(** [StrUnsignedDecimalLiteral] other than Infinity. *)
Definition unsignedDecimalLiteral (s : string) : option Q :=
  let '(ip, r1) := spanDigits 10 s in
  let '(fp, r2, ok) :=
    if startsWith r1 "." then
      let '(fp, r2) := spanDigits 10 (drop 1 r1) in
      (fp, r2, negb (Nat.eqb (List.length ip + List.length fp) 0))
    else ([], r1, negb (Nat.eqb (List.length ip) 0)) in
  if ok then
    match exponentPart r2 with
    | Some e =>
        Some (Qred (inject_Z (digitsValue 10 (ip ++ fp)%list)
                    * pow10 (e - Z.of_nat (List.length fp))))
    | None => None
    end
  else None.

Definition StringToNumber (str : string) : numeric :=
  let s := trim str in
  if isEmpty s then NRat 0
  else
    match nonDecimalLiteral s with
    | Some n => NRat (inject_Z n)
    | None =>
        let negative := startsWith s "-" in
        let u := if (startsWith s "+" || startsWith s "-")%bool then drop 1 s else s in
        if String.eqb u "Infinity" then NInf negative
        else
          match unsignedDecimalLiteral u with
          | Some q => NRat (if negative then Qred (- q) else q)
          | None => NNaN
          end
    end.

(** The string is made of decimal digits only. *)
Fixpoint decimalDigits (s : string) : bool :=
  match s with
  | String c r =>
      match radixDigit 10 c with
      | Some _ => decimalDigits r
      | None => false
      end
  | EmptyString => true
  end.

(** The global [isNaN] applied to a string. *)
Definition isNaN (s : string) : bool :=
  match StringToNumber s with NNaN => true | _ => false end.

(** ** [Math.round] of a number with exact value: the floor of x + 1/2. *)
Definition roundNumeric (x : numeric) : number :=
  match x with
  | NNaN => NaN
  | NInf negative => Infinity negative
  | NRat q => Int (Qfloor (q + (1 # 2)))
  end.

(** ** The Number value of a real (ECMA-262, 6.1.6.1): the nearest
    binary64 value, ties to even. [ToNumber] of a numeric string is the
    Number value of its exact value (engines round correctly, also past
    the twentieth significant digit). *)

Definition pow2 (e : Z) : Q :=
  if 0 <=? e then inject_Z (2 ^ e) else Qinv (inject_Z (2 ^ (- e))).

(** The nearest integer, ties to even. *)
Definition roundHalfEven (q : Q) : Z :=
  let f := Qfloor q in
  match (q - inject_Z f ?= 1 # 2)%Q with
  | Lt => f
  | Gt => f + 1
  | Eq => if Z.even f then f else f + 1
  end.

(** For [q > 0]: [e] is the binary exponent, [2^e <= q < 2^(e+1)]; [2^u]
    is the unit in the last of 53 significant bits, no smaller than the
    least subnormal [2^-1074]; a rounded value from [2^1024] on is
    Infinity. *)
Definition binary64 (q : Q) : numeric :=
  let e0 := Z.log2 (Qnum q) - Z.log2 (Zpos (Qden q)) in
  let e := if Qle_bool (pow2 e0) q then e0 else e0 - 1 in
  let u := Z.max (e - 52) (-1074) in
  let v := (inject_Z (roundHalfEven (q / pow2 u)) * pow2 u)%Q in
  if Qle_bool (pow2 1024) v then NInf false else NRat (Qred v).

Definition toDouble (x : numeric) : numeric :=
  match x with
  | NRat q =>
      match (q ?= 0)%Q with
      | Eq => NRat 0
      | Gt => binary64 q
      | Lt =>
          match binary64 (- q) with
          | NRat v => NRat (Qred (- v))
          | NInf _ => NInf true
          | NNaN => NNaN
          end
      end
  | _ => x
  end.

(** ** [Math.ceil(a / b)] on integers with [b <> 0]: the quotient is the
    exact rational. *)
Definition ceilDiv (a b : Z) : Z := Qceiling (inject_Z a / inject_Z b).

(** [Math.ceil(a / b)] where [a] comes from [parseInt] and [b] is an
    integer: NaN stays NaN, and a zero divisor gives NaN or an infinity. *)
Definition Math_ceil_quot (a : option Z) (b : Z) : number :=
  match a with
  | None => NaN
  | Some a =>
      if b =? 0 then
        (if a =? 0 then NaN else Infinity (a <? 0))
      else Int (ceilDiv a b)
  end.

(** [a < b] for an integer [a] and a number [b]. *)
Definition lessThan (a : Z) (b : number) : bool :=
  match b with
  | NaN => false
  | Infinity negative => negb negative
  | Int z => a <? z
  end.

(** ** Values

    A [cell] is what node-postgres hands back for one column of a row:
    null, a boolean, an integer (int2, int4), a string (text, and bigint
    and numeric, which arrive as strings) or a Date (timestamp columns).
    A [jsval] is a value the handlers bind as a query parameter or send
    as JSON. *)

Inductive cell : Type :=
| CNull
| CBool (b : bool)
| CInt (z : Z)
| CStr (s : string)
| CDate (time : Z).

(** A row object: its columns, each name once. *)
Definition row : Type := list (string * cell).

#[warnings="-register-all"] Inductive jsval : Type :=
| VUndefined
| VNull
| VBool (b : bool)
| VNum (n : number)
| VStr (s : string)
| VDate (time : Z)
| VArr (items : list jsval)
| VObj (fields : list (string * jsval)).

Fixpoint lookup {A : Type} (k : string) (fields : list (string * A)) : option A :=
  match fields with
  | (k', v) :: rest => if String.eqb k k' then Some v else lookup k rest
  | [] => None
  end.

Definition ofCell (c : cell) : jsval :=
  match c with
  | CNull => VNull
  | CBool b => VBool b
  | CInt z => VNum (Int z)
  | CStr s => VStr s
  | CDate t => VDate t
  end.

(** A property read from a row: [undefined] when the column is absent. *)
Definition ofField (f : option cell) : jsval :=
  match f with Some c => ofCell c | None => VUndefined end.

Definition ofRow (r : row) : jsval :=
  VObj (map (fun kv => (fst kv, ofCell (snd kv))) r).

Definition ofRows (rs : list row) : jsval := VArr (map ofRow rs).

(** Truthiness of a property read from a row. *)
Definition truthy (f : option cell) : bool :=
  match f with
  | None | Some CNull => false
  | Some (CBool b) => b
  | Some (CInt z) => negb (z =? 0)
  | Some (CStr s) => negb (isEmpty s)
  | Some (CDate _) => true
  end.

(** [x || 0] for a property [x] read from a row. *)
Definition orZero (f : option cell) : cell :=
  match f with
  | Some c => if truthy f then c else CInt 0
  | None => CInt 0
  end.

(** [parseInt(x)] for a cell: [ToString] first. An integer prints as its
    decimal digits; null, booleans and Dates print as text that starts
    with a letter. *)
Definition parseIntCell (c : cell) : option Z :=
  match c with
  | CStr s => parseInt s
  | CInt z => parseInt (decimal z)
  | CNull => parseInt "null"
  | CBool b => parseInt (if b then "true" else "false")
  | CDate _ => None
  end.

(** [parseInt(x)] for a property read from a row. *)
Definition parseIntField (f : option cell) : option Z :=
  match f with
  | Some c => parseIntCell c
  | None => parseInt "undefined"
  end.

(** [Math.round(x)] for a cell: [ToNumber] first, which for a string is
    the Number value of what the string denotes. *)
Definition Math_round (c : cell) : number :=
  match c with
  | CStr s => roundNumeric (toDouble (StringToNumber s))
  | CInt z => Int z
  | CNull => Int 0
  | CBool b => Int (if b then 1 else 0)
  | CDate t => Int t
  end.

(** A value of [req.query]: a string, or [undefined] when the key is
    absent. *)
Definition parseIntQuery (v : option string) : option Z :=
  match v with
  | Some s => parseInt s
  | None => parseInt "undefined"
  end.

(** A string used as a condition: the empty string is falsy. *)
Definition nonEmpty (s : string) : bool := negb (isEmpty s).

(** [v || ''] for a value of [req.query]. *)
Definition orEmpty (v : option string) : string :=
  match v with Some s => s | None => "" end.

(** [n || d] for a number [n] produced by [parseInt]: NaN and 0 are falsy. *)
Definition orElse (n : option Z) (d : Z) : Z :=
  match n with
  | Some z => if z =? 0 then d else z
  | None => d
  end.

(** [Array.prototype.slice(0, end)]. *)
Definition slice0 {A : Type} (l : list A) (finish : Z) : list A :=
  let len := Z.of_nat (List.length l) in
  let k := if finish <? 0 then Z.max (len + finish) 0 else Z.min finish len in
  firstn (Z.to_nat k) l.

(** [Array.prototype.sort(comparefn)]: stable; [comparefn a b > 0] puts
    [a] after [b], and a NaN result counts as 0. *)
Definition after (comparefn : row -> row -> option Z) (a b : row) : bool :=
  match comparefn a b with
  | Some v => 0 <? v
  | None => false
  end.

Fixpoint insert (comparefn : row -> row -> option Z) (a : row) (l : list row) : list row :=
  match l with
  | b :: l' => if after comparefn a b then b :: insert comparefn a l' else a :: l
  | [] => [a]
  end.

Fixpoint sort (comparefn : row -> row -> option Z) (l : list row) : list row :=
  match l with
  | a :: l' => insert comparefn a (sort comparefn l')
  | [] => []
  end.

End JS.

(* ================================================================== *)
(** * The environment: database, client, console                      *)
(* ================================================================== *)

Module Env.
Import JS.

Inductive reply : Type :=
| Rows (rows : list row)
| Failed (message : string).

(** What a handler does to the outside, in order. *)
Inductive event : Type :=
| Connected (failure : option string)
| Queried (text : string) (values : list jsval) (r : reply)
| Ended
| Logged (line : string).

(** [db_connect]: [None] when [client.connect()] resolves, the error
    message when it rejects. [db_query]: the result of [client.query],
    given everything that happened before. [Date_parse]: the engine's
    reading of a date string (implementation-defined beyond ISO 8601). *)
Record world : Type := {
  db_connect : option string;
  db_query : list event -> string -> list jsval -> reply;
  Date_parse : string -> option Z }.

Inductive outcome (A : Type) : Type :=
| Return (a : A)
| Throw (message : string).
Arguments Return {A} a.
Arguments Throw {A} message.

(** A computation reads the world, extends the history and returns or
    throws an [Error] with a message. *)
Definition M (A : Type) : Type := world -> list event -> list event * outcome A.

Definition ret {A} (a : A) : M A := fun _ h => (h, Return a).

Definition throw {A} (message : string) : M A := fun _ h => (h, Throw message).

Definition bind {A B} (m : M A) (k : A -> M B) : M B :=
  fun w h =>
    let (h1, r) := m w h in
    match r with
    | Return a => k a w h1
    | Throw e => (h1, Throw e)
    end.

Definition tryCatch {A} (m : M A) (handler : string -> M A) : M A :=
  fun w h =>
    let (h1, r) := m w h in
    match r with
    | Return a => (h1, Return a)
    | Throw e => handler e w h1
    end.

Definition tryFinally {A} (m : M A) (finalizer : M unit) : M A :=
  fun w h =>
    let (h1, r) := m w h in
    let (h2, f) := finalizer w h1 in
    match f with
    | Return _ => (h2, r)
    | Throw e => (h2, Throw e)
    end.

(** [Promise.all([a, b])]: both are started, in order; the first
    rejection wins. *)
Definition both {A B} (a : M A) (b : M B) : M (A * B) :=
  fun w h =>
    let (h1, ra) := a w h in
    let (h2, rb) := b w h1 in
    (h2, match ra, rb with
         | Return x, Return y => Return (x, y)
         | Throw e, _ => Throw e
         | Return _, Throw e => Throw e
         end).

Definition emit (e : event) : M unit := fun _ h => ((h ++ [e])%list, Return tt).

Definition client_connect : M unit :=
  fun w h =>
    ((h ++ [Connected (db_connect w)])%list,
     match db_connect w with
     | None => Return tt
     | Some e => Throw e
     end).

Definition client_query (text : string) (values : list jsval) : M (list row) :=
  fun w h =>
    let r := db_query w h text values in
    ((h ++ [Queried text values r])%list,
     match r with
     | Rows rows => Return rows
     | Failed e => Throw e
     end).

Definition client_end : M unit := emit Ended.

Definition console_error (line : string) : M unit := emit (Logged line).

(** [o.k] for a row [o] that may be [undefined]: a TypeError then. *)
Definition member (o : option row) (k : string) : M (option cell) :=
  match o with
  | Some r => ret (lookup k r)
  | None => throw ("Cannot read properties of undefined (reading '" ++ k ++ "')")
  end.

(** [new Date(x).getTime()] for a property read from a row; [None] is
    the NaN of an invalid Date. *)
Definition timeValue (w : world) (f : option cell) : option Z :=
  match f with
  | Some (CDate t) => Some t
  | Some (CInt z) => if Z.abs z <=? 8640000000000000 then Some z else None
  | Some CNull => Some 0
  | Some (CBool b) => Some (if b then 1 else 0)
  | Some (CStr s) => Date_parse w s
  | None => None
  end.

(** The engine the handler runs on, for its [Date.parse]. *)
Definition engine : M world := fun w h => (h, Return w).

Definition run {A} (m : M A) (w : world) : list event * outcome A := m w [].

End Env.

Declare Scope monad_scope.
Delimit Scope monad_scope with monad.
Notation "x <- m ;; k" := (Env.bind m (fun x => k))
  (at level 61, m at next level, right associativity) : monad_scope.
Notation "' p <- m ;; k" := (Env.bind m (fun x => match x with p => k end))
  (at level 61, p pattern, m at next level, right associativity) : monad_scope.
Notation "m ;; k" := (Env.bind m (fun _ => k))
  (at level 61, right associativity) : monad_scope.

(* ================================================================== *)
(** * The handlers of src/api.js                                       *)
(* ================================================================== *)

Module Http.
Import JS Env.
Open Scope monad_scope.

(** [req.query] of a request, each key with its one string value; path
    parameters are arguments of the handlers of the routes that have
    them. *)
Record request : Type := { query : list (string * string) }.

Definition req_query (req : request) (k : string) : option string :=
  lookup k (query req).

Record response : Type := { status : Z; body : jsval }.

Definition res_status_json (code : Z) (payload : jsval) : M response :=
  ret {| status := code; body := payload |}.

Definition res_json (payload : jsval) : M response := res_status_json 200 payload.

(** [handleError] (api.js, 34-41). *)
Definition handleError (error context : string) : M response :=
  console_error ("[" ++ context ++ "] " ++ error) ;;
  res_status_json 500
    (VObj [ ("error", VStr "Internal server error");
            ("message", VStr error);
            ("context", VStr context) ]).

Definition newline : string := String (ascii_of_nat 10) EmptyString.

(** A template literal, line by line. *)
Definition template (lines : list string) : string := String.concat newline lines.

(** [Promise.all] of three and of four promises. *)
Definition all3 {A B C} (a : M A) (b : M B) (c : M C) : M (A * B * C) :=
  '(x, (y, z)) <- both a (both b c) ;; ret (x, y, z).

Definition all4 {A B C D} (a : M A) (b : M B) (c : M C) (d : M D) : M (A * B * C * D) :=
  '(x, (y, (z, t))) <- both a (both b (both c d)) ;; ret (x, y, z, t).

(** [rows[0]]. *)
Definition firstRow (rows : list row) : option row := List.head rows.

(** [o?.k]. *)
Definition optionalMember (o : option row) (k : string) : option cell :=
  match o with Some r => lookup k r | None => None end.

End Http.

(** ** GET /api/dashboard/stats (api.js, 44-149) *)
Module DashboardStats.
Import JS Env Http.
Open Scope monad_scope.

Definition userCountQuery : string := "SELECT COUNT(*) as total_users FROM usernames".

Definition conversationStatsQuery : string :=
  template
    [ "";
      "      SELECT ";
      "        total_conversations,";
      "        active_conversations,";
      "        ended_conversations,";
      "        avg_messages_per_conversation,";
      "        conversations_today";
      "      FROM conversation_stats";
      "      LIMIT 1";
      "    " ].

Definition conversationStatsFallbackQuery : string :=
  template
    [ "";
      "      SELECT ";
      "        COUNT(*) as total_conversations,";
      "        COUNT(CASE WHEN status = 'active' THEN 1 END) as active_conversations,";
      "        COUNT(CASE WHEN status = 'ended' THEN 1 END) as ended_conversations,";
      "        AVG(message_count) as avg_messages_per_conversation,";
      "        COUNT(CASE WHEN DATE(started_at AT TIME ZONE 'Asia/Jakarta') = CURRENT_DATE THEN 1 END) as conversations_today";
      "      FROM conversations";
      "    " ].

Definition messageStatsQuery : string :=
  template
    [ "";
      "      SELECT ";
      "        COUNT(*) as total_messages,";
      "        COUNT(DISTINCT sender_user_id) as unique_senders";
      "      FROM chat_logs ";
      "    " ].

Definition genderStatsQuery : string :=
  template
    [ "";
      "      SELECT ";
      "        gender, ";
      "        COUNT(*) as count ";
      "      FROM usernames ";
      "      GROUP BY gender";
      "    " ].

Definition dailyMessagesQuery : string :=
  template
    [ "";
      "      SELECT ";
      "        DATE(timestamp AT TIME ZONE 'Asia/Jakarta') as message_date,";
      "        COUNT(*) as daily_messages";
      "      FROM chat_logs ";
      "      WHERE timestamp >= NOW() - INTERVAL '7 days'";
      "      GROUP BY DATE(timestamp AT TIME ZONE 'Asia/Jakarta')";
      "      ORDER BY message_date DESC";
      "      LIMIT 7";
      "    " ].

(** The summary read and its fallback (api.js, 109-123). *)
Definition readConversationStats : M (option row) :=
  tryCatch
    (statsResult <- client_query conversationStatsQuery [] ;;
     if (0 <? Z.of_nat (List.length statsResult)) then ret (firstRow statsResult)
     else
       fallbackResult <- client_query conversationStatsFallbackQuery [] ;;
       ret (firstRow fallbackResult))
    (fun error =>
       fallbackResult <- client_query conversationStatsFallbackQuery [] ;;
       ret (firstRow fallbackResult)).

(** The response document (api.js, 125-142). *)
Definition shape (userCount genderStats messageStats dailyMessages : list row)
                 (conversationStats : option row) : M response :=
  total_users <- member (firstRow userCount) "total_users" ;;
  total_conversations <- member conversationStats "total_conversations" ;;
  active_conversations <- member conversationStats "active_conversations" ;;
  ended_conversations <- member conversationStats "ended_conversations" ;;
  avg_messages_per_conversation <- member conversationStats "avg_messages_per_conversation" ;;
  conversations_today <- member conversationStats "conversations_today" ;;
  res_json
    (VObj
       [ ("users",
          VObj [ ("total", VNum (ofParse (parseIntField total_users)));
                 ("byGender", ofRows genderStats) ]);
         ("conversations",
          VObj [ ("total", VNum (ofParse (parseIntCell (orZero total_conversations))));
                 ("active", VNum (ofParse (parseIntCell (orZero active_conversations))));
                 ("ended", VNum (ofParse (parseIntCell (orZero ended_conversations))));
                 ("avgMessages", VNum (Math_round (orZero avg_messages_per_conversation)));
                 ("today", VNum (ofParse (parseIntCell (orZero conversations_today)))) ]);
         ("messages",
          VObj [ ("total",
                  VNum (ofParse (parseIntCell
                    (orZero (optionalMember (firstRow messageStats) "total_messages")))));
                 ("uniqueSenders",
                  VNum (ofParse (parseIntCell
                    (orZero (optionalMember (firstRow messageStats) "unique_senders")))));
                 ("dailyStats", ofRows dailyMessages) ]) ]).

Definition handler (req : request) : M response :=
  tryFinally
    (tryCatch
       (client_connect ;;
        '(userCount, genderStats, messageStats, dailyMessages) <-
          all4 (client_query userCountQuery [])
               (client_query genderStatsQuery [])
               (client_query messageStatsQuery [])
               (client_query dailyMessagesQuery []) ;;
        conversationStats <- readConversationStats ;;
        shape userCount genderStats messageStats dailyMessages conversationStats)
       (fun error => handleError error "dashboard stats"))
    client_end.

End DashboardStats.

(** ** GET /api/users (api.js, 152-218) *)
Module Users.
Import JS Env Http.
Open Scope monad_scope.

Definition page (req : request) : Z := orElse (parseIntQuery (req_query req "page")) 1.
Definition limit (req : request) : Z := orElse (parseIntQuery (req_query req "limit")) 20.

(** The predicate builder (api.js, 164-178): [whereClause],
    [queryParams] and [paramIndex] after the two [if]s. *)
Definition filters (search gender : string) : string * list jsval * Z :=
  let whereClause := "" in
  let queryParams := @nil jsval in
  let paramIndex := 1 in
  let '(whereClause, queryParams, paramIndex) :=
    if nonEmpty search then
      (whereClause ++ " WHERE username ILIKE $" ++ decimal paramIndex,
       (queryParams ++ [VStr ("%" ++ search ++ "%")])%list,
       paramIndex + 1)
    else (whereClause, queryParams, paramIndex) in
  let '(whereClause, queryParams, paramIndex) :=
    if nonEmpty gender then
      (whereClause ++
         (if nonEmpty search then " AND gender = $" ++ decimal paramIndex
          else " WHERE gender = $" ++ decimal paramIndex),
       (queryParams ++ [VStr gender])%list,
       paramIndex + 1)
    else (whereClause, queryParams, paramIndex) in
  (whereClause, queryParams, paramIndex).

Definition countQuery (whereClause : string) : string :=
  "SELECT COUNT(*) as total FROM usernames" ++ whereClause.

Definition usersQuery (whereClause : string) (paramIndex : Z) : string :=
  template
    [ "";
      "      SELECT ";
      "        user_id,";
      "        username,";
      "        gender";
      "      FROM usernames";
      "      " ++ whereClause;
      "      ORDER BY user_id DESC";
      "      LIMIT $" ++ decimal paramIndex ++ " OFFSET $" ++ decimal (paramIndex + 1);
      "    " ].

Definition handler (req : request) : M response :=
  tryFinally
    (tryCatch
       (client_connect ;;
        let page := page req in
        let limit := limit req in
        let offset := (page - 1) * limit in
        let search := orEmpty (req_query req "search") in
        let gender := orEmpty (req_query req "gender") in
        let '(whereClause, queryParams, paramIndex) := filters search gender in
        let countQuery := countQuery whereClause in
        let usersQuery := usersQuery whereClause paramIndex in
        let queryParams := (queryParams ++ [VNum (Int limit); VNum (Int offset)])%list in
        '(countResult, usersResult) <-
          both (client_query countQuery (slice0 queryParams (-2)))
               (client_query usersQuery queryParams) ;;
        total <- member (firstRow countResult) "total" ;;
        let totalUsers := parseIntField total in
        let totalPages := Math_ceil_quot totalUsers limit in
        res_json
          (VObj
             [ ("users", ofRows usersResult);
               ("pagination",
                VObj [ ("currentPage", VNum (Int page));
                       ("totalPages", VNum totalPages);
                       ("totalUsers", VNum (ofParse totalUsers));
                       ("hasNext", VBool (lessThan page totalPages));
                       ("hasPrev", VBool (1 <? page)) ]) ]))
       (fun error => handleError error "get users"))
    client_end.

End Users.

(** ** GET /api/users/:identifier (api.js, 221-299) *)
Module UserDetails.
Import JS Env Http.
Open Scope monad_scope.

(** Identifier resolution (api.js, 227-237): the query text and its one
    parameter. *)
Definition resolve (identifier : string) : string * jsval :=
  let isUserId := negb (isNaN identifier) in
  if isUserId then
    ("SELECT * FROM usernames WHERE user_id = $1",
     VNum (ofParse (parseInt identifier)))
  else
    ("SELECT * FROM usernames WHERE username = $1",
     VStr (if startsWith identifier "@" then identifier else "@" ++ identifier)).

Definition conversationCountQuery : string :=
  template
    [ "";
      "      SELECT COUNT(*) as conversation_count ";
      "      FROM conversations ";
      "      WHERE user1_id = $1 OR user2_id = $1";
      "    " ].

Definition messageCountQuery : string :=
  template
    [ "";
      "      SELECT COUNT(*) as message_count ";
      "      FROM chat_logs ";
      "      WHERE sender_user_id = $1";
      "    " ].

Definition recentConversationsQuery : string :=
  template
    [ "";
      "      SELECT ";
      "        id,";
      "        CASE ";
      "          WHEN user1_id = $1 THEN user2_username";
      "          ELSE user1_username";
      "        END as partner_username,";
      "        started_at,";
      "        ended_at,";
      "        status,";
      "        (SELECT COUNT(*) FROM chat_logs WHERE conversation_id = conversations.id) as message_count";
      "      FROM conversations ";
      "      WHERE user1_id = $1 OR user2_id = $1";
      "      ORDER BY started_at DESC";
      "      LIMIT 10";
      "    " ].

Definition handler (identifier : string) (req : request) : M response :=
  tryFinally
    (tryCatch
       (client_connect ;;
        let '(userQuery, queryParam) := resolve identifier in
        userResult <- client_query userQuery [queryParam] ;;
        match userResult with
        | [] => res_status_json 404 (VObj [ ("error", VStr "User not found") ])
        | user :: _ =>
            let user_id := ofField (lookup "user_id" user) in
            '(conversationCount, messageCount, recentConversations) <-
              all3 (client_query conversationCountQuery [user_id])
                   (client_query messageCountQuery [user_id])
                   (client_query recentConversationsQuery [user_id]) ;;
            conversation_count <- member (firstRow conversationCount) "conversation_count" ;;
            message_count <- member (firstRow messageCount) "message_count" ;;
            res_json
              (VObj
                 [ ("user", ofRow user);
                   ("stats",
                    VObj [ ("conversationCount", VNum (ofParse (parseIntField conversation_count)));
                           ("messageCount", VNum (ofParse (parseIntField message_count))) ]);
                   ("recentConversations", ofRows recentConversations) ])
        end)
       (fun error => handleError error "get user details"))
    client_end.

End UserDetails.

(** ** GET /api/conversations (api.js, 302-375) *)
Module Conversations.
Import JS Env Http.
Open Scope monad_scope.

Definition page (req : request) : Z := orElse (parseIntQuery (req_query req "page")) 1.
Definition limit (req : request) : Z := orElse (parseIntQuery (req_query req "limit")) 20.

(** The predicate builder (api.js, 314-329). *)
Definition filters (status search : string) : string * list jsval * Z :=
  let whereClause := "" in
  let queryParams := @nil jsval in
  let paramIndex := 1 in
  let '(whereClause, queryParams, paramIndex) :=
    if nonEmpty status then
      (whereClause ++ " WHERE status = $" ++ decimal paramIndex,
       (queryParams ++ [VStr status])%list,
       paramIndex + 1)
    else (whereClause, queryParams, paramIndex) in
  let '(whereClause, queryParams, paramIndex) :=
    if nonEmpty search then
      let searchCondition :=
        " (user1_username ILIKE $" ++ decimal paramIndex
          ++ " OR user2_username ILIKE $" ++ decimal paramIndex ++ ")" in
      (whereClause ++
         (if nonEmpty status then " AND " ++ searchCondition
          else " WHERE " ++ searchCondition),
       (queryParams ++ [VStr ("%" ++ search ++ "%")])%list,
       paramIndex + 1)
    else (whereClause, queryParams, paramIndex) in
  (whereClause, queryParams, paramIndex).

Definition countQuery (whereClause : string) : string :=
  "SELECT COUNT(*) as total FROM conversations" ++ whereClause.

Definition conversationsQuery (whereClause : string) (paramIndex : Z) : string :=
  template
    [ "";
      "      SELECT ";
      "        id,";
      "        user1_id,";
      "        user1_username,";
      "        user2_id,";
      "        user2_username,";
      "        started_at,";
      "        ended_at,";
      "        status,";
      "        (SELECT COUNT(*) FROM chat_logs WHERE conversation_id = conversations.id) as message_count";
      "      FROM conversations";
      "      " ++ whereClause;
      "      ORDER BY started_at DESC";
      "      LIMIT $" ++ decimal paramIndex ++ " OFFSET $" ++ decimal (paramIndex + 1);
      "    " ].

Definition handler (req : request) : M response :=
  tryFinally
    (tryCatch
       (client_connect ;;
        let page := page req in
        let limit := limit req in
        let offset := (page - 1) * limit in
        let status := orEmpty (req_query req "status") in
        let search := orEmpty (req_query req "search") in
        let '(whereClause, queryParams, paramIndex) := filters status search in
        let countQuery := countQuery whereClause in
        let conversationsQuery := conversationsQuery whereClause paramIndex in
        let queryParams := (queryParams ++ [VNum (Int limit); VNum (Int offset)])%list in
        '(countResult, conversationsResult) <-
          both (client_query countQuery (slice0 queryParams (-2)))
               (client_query conversationsQuery queryParams) ;;
        total <- member (firstRow countResult) "total" ;;
        let totalConversations := parseIntField total in
        let totalPages := Math_ceil_quot totalConversations limit in
        res_json
          (VObj
             [ ("conversations", ofRows conversationsResult);
               ("pagination",
                VObj [ ("currentPage", VNum (Int page));
                       ("totalPages", VNum totalPages);
                       ("totalConversations", VNum (ofParse totalConversations));
                       ("hasNext", VBool (lessThan page totalPages));
                       ("hasPrev", VBool (1 <? page)) ]) ]))
       (fun error => handleError error "get conversations"))
    client_end.

End Conversations.

(** ** GET /api/conversations/:conversationId (api.js, 378-426) *)
Module ConversationDetails.
Import JS Env Http.
Open Scope monad_scope.

Definition conversationQuery : string :=
  template
    [ "";
      "      SELECT *, ";
      "        (SELECT COUNT(*) FROM chat_logs WHERE conversation_id = conversations.id) as actual_message_count";
      "      FROM conversations WHERE id = $1";
      "    " ].

Definition messagesQuery : string :=
  template
    [ "";
      "      SELECT ";
      "        sender_user_id,";
      "        sender_username,";
      "        receiver_user_id,";
      "        receiver_username,";
      "        message,";
      "        timestamp";
      "      FROM chat_logs ";
      "      WHERE conversation_id = $1";
      "      ORDER BY timestamp ASC";
      "    " ].

Definition handler (conversationId : string) (req : request) : M response :=
  tryFinally
    (tryCatch
       (client_connect ;;
        '(conversationResult, messagesResult) <-
          both (client_query conversationQuery [VStr conversationId])
               (client_query messagesQuery [VStr conversationId]) ;;
        match conversationResult with
        | [] => res_status_json 404 (VObj [ ("error", VStr "Conversation not found") ])
        | conversation :: _ =>
            res_json
              (VObj [ ("conversation", ofRow conversation);
                      ("messages", ofRows messagesResult) ])
        end)
       (fun error => handleError error "get conversation details"))
    client_end.

End ConversationDetails.

(** ** GET /api/messages (api.js, 429-524) *)
Module Messages.
Import JS Env Http.
Open Scope monad_scope.

Definition page (req : request) : Z := orElse (parseIntQuery (req_query req "page")) 1.
Definition limit (req : request) : Z := orElse (parseIntQuery (req_query req "limit")) 50.

(** The predicate builder (api.js, 444-480). *)
Definition filters (conversationId userId search dateFrom dateTo : string)
  : string * list jsval * Z :=
  let whereClause := "" in
  let queryParams := @nil jsval in
  let paramIndex := 1 in
  let '(whereClause, queryParams, paramIndex) :=
    if nonEmpty conversationId then
      (whereClause ++ " WHERE conversation_id = $" ++ decimal paramIndex,
       (queryParams ++ [VStr conversationId])%list,
       paramIndex + 1)
    else (whereClause, queryParams, paramIndex) in
  let '(whereClause, queryParams, paramIndex) :=
    if nonEmpty userId then
      let userCondition :=
        " (sender_user_id = $" ++ decimal paramIndex
          ++ " OR receiver_user_id = $" ++ decimal paramIndex ++ ")" in
      (whereClause ++
         (if nonEmpty conversationId then " AND " ++ userCondition
          else " WHERE " ++ userCondition),
       (queryParams ++ [VNum (ofParse (parseInt userId))])%list,
       paramIndex + 1)
    else (whereClause, queryParams, paramIndex) in
  let '(whereClause, queryParams, paramIndex) :=
    if nonEmpty search then
      let searchCondition := " message ILIKE $" ++ decimal paramIndex in
      (whereClause ++
         (if (nonEmpty conversationId || nonEmpty userId)%bool
          then " AND " ++ searchCondition
          else " WHERE " ++ searchCondition),
       (queryParams ++ [VStr ("%" ++ search ++ "%")])%list,
       paramIndex + 1)
    else (whereClause, queryParams, paramIndex) in
  let '(whereClause, queryParams, paramIndex) :=
    if nonEmpty dateFrom then
      let dateCondition := " timestamp >= $" ++ decimal paramIndex in
      (whereClause ++
         (if (nonEmpty conversationId || nonEmpty userId || nonEmpty search)%bool
          then " AND " ++ dateCondition
          else " WHERE " ++ dateCondition),
       (queryParams ++ [VStr dateFrom])%list,
       paramIndex + 1)
    else (whereClause, queryParams, paramIndex) in
  let '(whereClause, queryParams, paramIndex) :=
    if nonEmpty dateTo then
      let dateCondition := " timestamp <= $" ++ decimal paramIndex in
      (whereClause ++
         (if (nonEmpty conversationId || nonEmpty userId || nonEmpty search
              || nonEmpty dateFrom)%bool
          then " AND " ++ dateCondition
          else " WHERE " ++ dateCondition),
       (queryParams ++ [VStr dateTo])%list,
       paramIndex + 1)
    else (whereClause, queryParams, paramIndex) in
  (whereClause, queryParams, paramIndex).

Definition countQuery (whereClause : string) : string :=
  "SELECT COUNT(*) as total FROM chat_logs" ++ whereClause.

Definition messagesQuery (whereClause : string) (paramIndex : Z) : string :=
  template
    [ "";
      "      SELECT ";
      "        conversation_id,";
      "        sender_user_id,";
      "        sender_username,";
      "        receiver_user_id,";
      "        receiver_username,";
      "        message,";
      "        timestamp";
      "      FROM chat_logs";
      "      " ++ whereClause;
      "      ORDER BY timestamp DESC";
      "      LIMIT $" ++ decimal paramIndex ++ " OFFSET $" ++ decimal (paramIndex + 1);
      "    " ].

Definition handler (req : request) : M response :=
  tryFinally
    (tryCatch
       (client_connect ;;
        let page := page req in
        let limit := limit req in
        let offset := (page - 1) * limit in
        let conversationId := orEmpty (req_query req "conversation_id") in
        let userId := orEmpty (req_query req "user_id") in
        let search := orEmpty (req_query req "search") in
        let dateFrom := orEmpty (req_query req "date_from") in
        let dateTo := orEmpty (req_query req "date_to") in
        let '(whereClause, queryParams, paramIndex) :=
          filters conversationId userId search dateFrom dateTo in
        let countQuery := countQuery whereClause in
        let messagesQuery := messagesQuery whereClause paramIndex in
        let queryParams := (queryParams ++ [VNum (Int limit); VNum (Int offset)])%list in
        '(countResult, messagesResult) <-
          both (client_query countQuery (slice0 queryParams (-2)))
               (client_query messagesQuery queryParams) ;;
        total <- member (firstRow countResult) "total" ;;
        let totalMessages := parseIntField total in
        let totalPages := Math_ceil_quot totalMessages limit in
        res_json
          (VObj
             [ ("messages", ofRows messagesResult);
               ("pagination",
                VObj [ ("currentPage", VNum (Int page));
                       ("totalPages", VNum totalPages);
                       ("totalMessages", VNum (ofParse totalMessages));
                       ("hasNext", VBool (lessThan page totalPages));
                       ("hasPrev", VBool (1 <? page)) ]) ]))
       (fun error => handleError error "get messages"))
    client_end.

End Messages.

(** ** GET /api/users/:userId/conversations (api.js, 527-589) *)
Module UserConversations.
Import JS Env Http.
Open Scope monad_scope.

Definition page (req : request) : Z := orElse (parseIntQuery (req_query req "page")) 1.
Definition limit (req : request) : Z := orElse (parseIntQuery (req_query req "limit")) 20.

Definition conversationsQuery : string :=
  template
    [ "";
      "      SELECT ";
      "        id,";
      "        CASE ";
      "          WHEN user1_id = $1 THEN user2_id";
      "          ELSE user1_id";
      "        END as partner_id,";
      "        CASE ";
      "          WHEN user1_id = $1 THEN user2_username";
      "          ELSE user1_username";
      "        END as partner_username,";
      "        started_at,";
      "        ended_at,";
      "        status,";
      "        (SELECT COUNT(*) FROM chat_logs WHERE conversation_id = conversations.id) as message_count";
      "      FROM conversations ";
      "      WHERE user1_id = $1 OR user2_id = $1";
      "      ORDER BY started_at DESC";
      "      LIMIT $2 OFFSET $3";
      "    " ].

Definition countQuery : string :=
  template
    [ "";
      "      SELECT COUNT(*) as total ";
      "      FROM conversations ";
      "      WHERE user1_id = $1 OR user2_id = $1";
      "    " ].

Definition handler (userId : string) (req : request) : M response :=
  tryFinally
    (tryCatch
       (client_connect ;;
        let page := page req in
        let limit := limit req in
        let offset := (page - 1) * limit in
        '(conversationsResult, countResult) <-
          both (client_query conversationsQuery
                  [VNum (ofParse (parseInt userId)); VNum (Int limit); VNum (Int offset)])
               (client_query countQuery [VNum (ofParse (parseInt userId))]) ;;
        total <- member (firstRow countResult) "total" ;;
        let totalConversations := parseIntField total in
        let totalPages := Math_ceil_quot totalConversations limit in
        res_json
          (VObj
             [ ("conversations", ofRows conversationsResult);
               ("pagination",
                VObj [ ("currentPage", VNum (Int page));
                       ("totalPages", VNum totalPages);
                       ("totalConversations", VNum (ofParse totalConversations));
                       ("hasNext", VBool (lessThan page totalPages));
                       ("hasPrev", VBool (1 <? page)) ]) ]))
       (fun error => handleError error "get user conversations"))
    client_end.

End UserConversations.

(** ** GET /api/users/search/:query (api.js, 592-623) *)
Module SearchUsers.
Import JS Env Http.
Open Scope monad_scope.

Definition limit (req : request) : Z := orElse (parseIntQuery (req_query req "limit")) 10.

Definition searchQuery : string :=
  template
    [ "";
      "      SELECT ";
      "        user_id,";
      "        username,";
      "        gender";
      "      FROM usernames ";
      "      WHERE username ILIKE $1 OR user_id::text = $2";
      "      ORDER BY username";
      "      LIMIT $3";
      "    " ].

Definition handler (query : string) (req : request) : M response :=
  tryFinally
    (tryCatch
       (client_connect ;;
        let limit := limit req in
        result <- client_query searchQuery
                    [VStr ("%" ++ query ++ "%"); VStr query; VNum (Int limit)] ;;
        res_json (VObj [ ("users", ofRows result) ]))
       (fun error => handleError error "search users"))
    client_end.

End SearchUsers.

(** ** GET /api/activity/recent (api.js, 626-681) *)
Module RecentActivity.
Import JS Env Http.
Open Scope monad_scope.

Definition limit (req : request) : Z := orElse (parseIntQuery (req_query req "limit")) 20.

Definition recentConversationsQuery : string :=
  template
    [ "";
      "      SELECT ";
      "        'conversation' as type,";
      "        id as reference_id,";
      "        user1_username,";
      "        user2_username,";
      "        started_at as timestamp,";
      "        status";
      "      FROM conversations ";
      "      ORDER BY started_at DESC";
      "      LIMIT $1";
      "    " ].

Definition recentMessagesQuery : string :=
  template
    [ "";
      "      SELECT ";
      "        'message' as type,";
      "        conversation_id as reference_id,";
      "        sender_username,";
      "        receiver_username,";
      "        LEFT(message, 50) as preview,";
      "        timestamp";
      "      FROM chat_logs ";
      "      ORDER BY timestamp DESC";
      "      LIMIT $1";
      "    " ].

(** The comparator of the sort (api.js, 669):
    [new Date(b.timestamp) - new Date(a.timestamp)]. *)
Definition byTimestampDesc (w : world) (a b : row) : option Z :=
  match timeValue w (lookup "timestamp" b), timeValue w (lookup "timestamp" a) with
  | Some tb, Some ta => Some (tb - ta)
  | _, _ => None
  end.

(** Combine and sort by timestamp (api.js, 668-670). *)
Definition merge (w : world) (limit : Z) (conversations messages : list row) : list row :=
  slice0 (sort (byTimestampDesc w) (conversations ++ messages)%list) limit.

Definition handler (req : request) : M response :=
  tryFinally
    (tryCatch
       (client_connect ;;
        let limit := limit req in
        '(conversations, messages) <-
          both (client_query recentConversationsQuery [VNum (Int limit)])
               (client_query recentMessagesQuery [VNum (Int limit)]) ;;
        w <- engine ;;
        let activity := merge w limit conversations messages in
        res_json (VObj [ ("activity", ofRows activity) ]))
       (fun error => handleError error "get recent activity"))
    client_end.

End RecentActivity.

(** ** GET /api/analytics/usage (api.js, 684-755) *)
Module AnalyticsUsage.
Import JS Env Http.
Open Scope monad_scope.

Definition days (req : request) : Z := orElse (parseIntQuery (req_query req "days")) 7.

Definition userGrowthQuery : string :=
  template
    [ "";
      "      SELECT ";
      "        'Recent' as date,";
      "        COUNT(*) as new_users";
      "      FROM usernames ";
      "      WHERE user_id > (";
      "        SELECT COALESCE(MAX(user_id) - 100, 0) FROM usernames";
      "      )";
      "    " ].

Definition conversationsQuery (days : Z) : string :=
  template
    [ "";
      "      SELECT ";
      "        DATE(started_at AT TIME ZONE 'Asia/Jakarta') as date,";
      "        COUNT(*) as new_conversations";
      "      FROM conversations ";
      "      WHERE started_at >= NOW() - INTERVAL '" ++ decimal days ++ " days'";
      "      GROUP BY DATE(started_at AT TIME ZONE 'Asia/Jakarta')";
      "      ORDER BY date DESC";
      "    " ].

Definition messagesQuery (days : Z) : string :=
  template
    [ "";
      "      SELECT ";
      "        DATE(timestamp AT TIME ZONE 'Asia/Jakarta') as date,";
      "        COUNT(*) as messages";
      "      FROM chat_logs ";
      "      WHERE timestamp >= NOW() - INTERVAL '" ++ decimal days ++ " days'";
      "      GROUP BY DATE(timestamp AT TIME ZONE 'Asia/Jakarta')";
      "      ORDER BY date DESC";
      "    " ].

Definition activeUsersQuery (days : Z) : string :=
  template
    [ "";
      "      SELECT ";
      "        DATE(timestamp AT TIME ZONE 'Asia/Jakarta') as date,";
      "        COUNT(DISTINCT sender_user_id) as active_users";
      "      FROM chat_logs ";
      "      WHERE timestamp >= NOW() - INTERVAL '" ++ decimal days ++ " days'";
      "      GROUP BY DATE(timestamp AT TIME ZONE 'Asia/Jakarta')";
      "      ORDER BY date DESC";
      "    " ].

Definition handler (req : request) : M response :=
  tryFinally
    (tryCatch
       (client_connect ;;
        let days := days req in
        '(userGrowth, conversations, messages, activeUsers) <-
          all4 (client_query userGrowthQuery [])
               (client_query (conversationsQuery days) [])
               (client_query (messagesQuery days) [])
               (client_query (activeUsersQuery days) []) ;;
        res_json
          (VObj [ ("userRegistrations", ofRows userGrowth);
                  ("conversations", ofRows conversations);
                  ("messages", ofRows messages);
                  ("activeUsers", ofRows activeUsers) ]))
       (fun error => handleError error "get usage analytics"))
    client_end.

End AnalyticsUsage.

(** ** The routes of the application *)
Module App.
Import JS Env Http.

Inductive route : Type :=
| GetDashboardStats
| GetUsers
| GetUserDetails (identifier : string)
| GetConversations
| GetConversationDetails (conversationId : string)
| GetMessages
| GetUserConversations (userId : string)
| GetSearchUsers (query : string)
| GetRecentActivity
| GetAnalyticsUsage.

Definition handle (r : route) (req : request) : M response :=
  match r with
  | GetDashboardStats => DashboardStats.handler req
  | GetUsers => Users.handler req
  | GetUserDetails identifier => UserDetails.handler identifier req
  | GetConversations => Conversations.handler req
  | GetConversationDetails conversationId => ConversationDetails.handler conversationId req
  | GetMessages => Messages.handler req
  | GetUserConversations userId => UserConversations.handler userId req
  | GetSearchUsers query => SearchUsers.handler query req
  | GetRecentActivity => RecentActivity.handler req
  | GetAnalyticsUsage => AnalyticsUsage.handler req
  end.

(** The context label each handler passes to [handleError]. *)
Definition context (r : route) : string :=
  match r with
  | GetDashboardStats => "dashboard stats"
  | GetUsers => "get users"
  | GetUserDetails _ => "get user details"
  | GetConversations => "get conversations"
  | GetConversationDetails _ => "get conversation details"
  | GetMessages => "get messages"
  | GetUserConversations _ => "get user conversations"
  | GetSearchUsers _ => "search users"
  | GetRecentActivity => "get recent activity"
  | GetAnalyticsUsage => "get usage analytics"
  end.

End App.

(* ================================================================== *)
(** * The route table of src/api.js                                    *)
(* ================================================================== *)

(** The ten routes are registered with [app.get] in the order of the
    file. Express turns each path into a pattern that is matched against
    the path of the request URL (without the query string): literal
    segments match whatever the case of their letters, a parameter
    matches one non-empty segment, and one trailing slash is optional.
    The routes are tried in the order of registration and the first that
    matches handles the request (no handler calls [next]); its
    parameters are percent-decoded with [decodeURIComponent], and a
    route whose parameter cannot be decoded is passed over, the request
    being answered 400 when no later route matches. *)
Module Router.
Import JS Env Http App.

Inductive segment : Type :=
| Literal (text : string)
| Capture (name : string).

(** A path as [app.get] takes it, cut at its slashes. *)
Definition pattern : Type := list segment.

Definition nullary (r : route) (params : list string) : route := r.

Definition unary (r : string -> route) (params : list string) : route :=
  r (hd "" params).

(** The registrations (api.js, 44, 152, 221, 302, 378, 429, 527, 592,
    626 and 684). *)
Definition routes : list (pattern * (list string -> route)) :=
  [ ([Literal "api"; Literal "dashboard"; Literal "stats"], nullary GetDashboardStats);
    ([Literal "api"; Literal "users"], nullary GetUsers);
    ([Literal "api"; Literal "users"; Capture "identifier"], unary GetUserDetails);
    ([Literal "api"; Literal "conversations"], nullary GetConversations);
    ([Literal "api"; Literal "conversations"; Capture "conversationId"],
     unary GetConversationDetails);
    ([Literal "api"; Literal "messages"], nullary GetMessages);
    ([Literal "api"; Literal "users"; Capture "userId"; Literal "conversations"],
     unary GetUserConversations);
    ([Literal "api"; Literal "users"; Literal "search"; Capture "query"],
     unary GetSearchUsers);
    ([Literal "api"; Literal "activity"; Literal "recent"], nullary GetRecentActivity);
    ([Literal "api"; Literal "analytics"; Literal "usage"], nullary GetAnalyticsUsage) ].

(** ASCII letters in lower case. *)
Definition lower (c : ascii) : ascii :=
  let n := nat_of_ascii c in
  if (Nat.leb 65 n && Nat.leb n 90)%bool then ascii_of_nat (n + 32) else c.

Fixpoint lowercase (s : string) : string :=
  match s with
  | String c r => String (lower c) (lowercase r)
  | EmptyString => EmptyString
  end.

(** The pieces of a string between the occurrences of a separator. *)
Fixpoint split (separator : ascii) (s : string) : list string :=
  match s with
  | String c r =>
      if Ascii.eqb c separator then EmptyString :: split separator r
      else
        match split separator r with
        | piece :: pieces => String c piece :: pieces
        | [] => [String c EmptyString]
        end
  | EmptyString => [EmptyString]
  end.

(** One trailing slash is optional: it leaves an empty last piece. *)
Fixpoint dropLastEmpty (pieces : list string) : list string :=
  match pieces with
  | [EmptyString] => []
  | piece :: rest => piece :: dropLastEmpty rest
  | [] => []
  end.

(** The segments of the path of a request; a path starts with a slash. *)
Definition pathSegments (path : string) : option (list string) :=
  match split "/" path with
  | EmptyString :: pieces => Some (dropLastEmpty pieces)
  | _ => None
  end.

(** The parameters a pattern captures from the segments of a path, when
    it matches them. *)
Fixpoint captures (p : pattern) (segments : list string) : option (list string) :=
  match p, segments with
  | [], [] => Some []
  | Literal text :: p', s :: segments' =>
      if String.eqb (lowercase s) (lowercase text) then captures p' segments' else None
  | Capture _ :: p', s :: segments' =>
      if isEmpty s then None
      else
        match captures p' segments' with
        | Some params => Some (s :: params)
        | None => None
        end
  | _, _ => None
  end.

Fixpoint decodeAll (decodeURIComponent : string -> option string)
    (params : list string) : option (list string) :=
  match params with
  | p :: params' =>
      match decodeURIComponent p, decodeAll decodeURIComponent params' with
      | Some d, Some ds => Some (d :: ds)
      | _, _ => None
      end
  | [] => Some []
  end.

Inductive resolution : Type :=
| Routed (r : route)
| BadRequest
| Unmatched.

(** The first registration that matches and whose parameters decode. *)
Fixpoint firstMatch (decodeURIComponent : string -> option string)
    (table : list (pattern * (list string -> route))) (segments : list string)
    (layerError : bool) : resolution :=
  match table with
  | (p, build) :: table' =>
      match captures p segments with
      | Some params =>
          match decodeAll decodeURIComponent params with
          | Some decoded => Routed (build decoded)
          | None => firstMatch decodeURIComponent table' segments true
          end
      | None => firstMatch decodeURIComponent table' segments layerError
      end
  | [] => if layerError then BadRequest else Unmatched
  end.

(** The handler of a GET request, by the path of its URL.
    [decodeURIComponent] is that of the engine, [None] when it throws a
    URIError. *)
Definition dispatch (decodeURIComponent : string -> option string) (path : string)
  : resolution :=
  match pathSegments path with
  | Some segments => firstMatch decodeURIComponent routes segments false
  | None => Unmatched
  end.

(** A path segment: not empty, and without a slash. *)
Fixpoint slashFree (s : string) : bool :=
  match s with
  | String c r => (negb (Ascii.eqb c "/") && slashFree r)%bool
  | EmptyString => true
  end.

Definition isSegment (s : string) : bool := (negb (isEmpty s) && slashFree s)%bool.

End Router.


(* ================================================================== *)
(** * Vocabulary of the properties                                     *)
(* ================================================================== *)

Module Spec.
Import JS Env Http App.

(** ** Traces *)

(** Events a handler causes between connecting and ending. *)
Definition inner (e : event) : Prop :=
  match e with
  | Queried _ _ _ | Logged _ => True
  | Connected _ | Ended => False
  end.

(** Whether the connection is open after a trace. *)
Fixpoint openAfter (opened : bool) (tr : list event) : bool :=
  match tr with
  | Connected None :: tr' => openAfter true tr'
  | Ended :: tr' => openAfter false tr'
  | _ :: tr' => openAfter opened tr'
  | [] => opened
  end.

Definition isConnect (e : event) : bool :=
  match e with Connected _ => true | _ => false end.

Definition isEnd (e : event) : bool :=
  match e with Ended => true | _ => false end.

(** The message of the first database operation of a trace that failed. *)
Fixpoint firstFailure (tr : list event) : option string :=
  match tr with
  | Connected (Some e) :: _ => Some e
  | Queried _ _ (Failed e) :: _ => Some e
  | _ :: tr' => firstFailure tr'
  | [] => None
  end.

(** How many times a query text was executed. *)
Definition executions (text : string) (tr : list event) : nat :=
  List.length
    (filter (fun e => match e with
                      | Queried t _ _ => String.eqb t text
                      | _ => false
                      end) tr).

(** The query texts of a trace, in order. *)
Fixpoint texts (tr : list event) : list string :=
  match tr with
  | Queried t _ _ :: tr' => t :: texts tr'
  | _ :: tr' => texts tr'
  | [] => []
  end.

(** A computation only queries and logs. *)
Definition quiet {A} (m : M A) : Prop :=
  forall w h, exists es, fst (m w h) = (h ++ es)%list /\ Forall inner es.

(** ** The predicate builder, as the contract of the spec words it *)

(** One optional filter: whether its input is present, the condition it
    contributes for a placeholder index, and the value it binds. *)
Record optionalFilter : Type := {
  active : bool;
  condition : Z -> string;
  value : jsval }.

(** The active filters in declaration order, each with the next index. *)
Fixpoint numbered (i : Z) (fs : list optionalFilter) : list (string * jsval) :=
  match fs with
  | f :: rest =>
      if active f then (condition f i, value f) :: numbered (i + 1) rest
      else numbered i rest
  | [] => []
  end.

Definition predicate (fs : list optionalFilter) : string :=
  match map fst (numbered 1 fs) with
  | [] => ""
  | c :: cs => " WHERE " ++ c ++ String.concat "" (map (fun c' => " AND " ++ c') cs)
  end.

Definition parameters (fs : list optionalFilter) : list jsval := map snd (numbered 1 fs).

Definition activeCount (fs : list optionalFilter) : nat := List.length (List.filter active fs).

(** The placeholder indices [$n] of a query text, in order of occurrence.
    [cur] is [None] outside a placeholder, [Some None] after a dollar
    sign, [Some (Some n)] after the digits of [n]. *)
Definition flush (cur : option (option Z)) : list Z :=
  match cur with Some (Some n) => [n] | _ => [] end.

Fixpoint scan (cur : option (option Z)) (s : string) : list Z :=
  match s with
  | String c r =>
      match cur, radixDigit 10 c with
      | Some acc, Some d =>
          scan (Some (Some (match acc with Some n => n * 10 + d | None => d end))) r
      | _, _ =>
          (flush cur ++ scan (if Ascii.eqb c "$" then Some None else None) r)%list
      end
  | EmptyString => flush cur
  end.

Definition placeholders (text : string) : list Z := scan None text.

(** 1, 2, ..., n. *)
Definition indices (n : nat) : list Z := map Z.of_nat (seq 1 n).

Definition usersFilters (search gender : string) : list optionalFilter :=
  [ {| active := nonEmpty search;
       condition := fun i => "username ILIKE $" ++ decimal i;
       value := VStr ("%" ++ search ++ "%") |};
    {| active := nonEmpty gender;
       condition := fun i => "gender = $" ++ decimal i;
       value := VStr gender |} ].

Definition conversationsFilters (status search : string) : list optionalFilter :=
  [ {| active := nonEmpty status;
       condition := fun i => "status = $" ++ decimal i;
       value := VStr status |};
    {| active := nonEmpty search;
       condition := fun i =>
         " (user1_username ILIKE $" ++ decimal i
           ++ " OR user2_username ILIKE $" ++ decimal i ++ ")";
       value := VStr ("%" ++ search ++ "%") |} ].

Definition messagesFilters (conversationId userId search dateFrom dateTo : string)
  : list optionalFilter :=
  [ {| active := nonEmpty conversationId;
       condition := fun i => "conversation_id = $" ++ decimal i;
       value := VStr conversationId |};
    {| active := nonEmpty userId;
       condition := fun i =>
         " (sender_user_id = $" ++ decimal i
           ++ " OR receiver_user_id = $" ++ decimal i ++ ")";
       value := VNum (ofParse (parseInt userId)) |};
    {| active := nonEmpty search;
       condition := fun i => " message ILIKE $" ++ decimal i;
       value := VStr ("%" ++ search ++ "%") |};
    {| active := nonEmpty dateFrom;
       condition := fun i => " timestamp >= $" ++ decimal i;
       value := VStr dateFrom |};
    {| active := nonEmpty dateTo;
       condition := fun i => " timestamp <= $" ++ decimal i;
       value := VStr dateTo |} ].

(** What the builder has to produce for the declared filters [fs]. *)
Definition builds (fs : list optionalFilter) (result : string * list jsval * Z) : Prop :=
  let '(whereClause, queryParams, paramIndex) := result in
  whereClause = predicate fs
  /\ queryParams = parameters fs
  /\ paramIndex = 1 + Z.of_nat (activeCount fs)
  /\ (activeCount fs = 0%nat -> whereClause = "")
  /\ (activeCount fs <> 0%nat -> startsWith whereClause " WHERE " = true)
  /\ List.length queryParams = activeCount fs
  /\ nodup Z.eq_dec (placeholders whereClause) = indices (activeCount fs).

(** The count query and the page query of a paginated list handler, as
    its trace shows them after a successful connect. *)
Definition pagedQueries (tr : list event) (countText pageText : string)
    (params : list jsval) (limit offset : Z) : Prop :=
  exists r1 r2 rest,
    tr = (Connected None
          :: Queried countText params r1
          :: Queried pageText (params ++ [VNum (Int limit); VNum (Int offset)]) r2
          :: rest)%list.


(** ** Pagination *)

(** The response document of a paginated list handler. *)
Definition pagedBody (rowsKey totalKey : string) (rows : list row)
    (page limit : Z) (total : option Z) : jsval :=
  VObj
    [ (rowsKey, ofRows rows);
      ("pagination",
       VObj [ ("currentPage", VNum (Int page));
              ("totalPages", VNum (Math_ceil_quot total limit));
              (totalKey, VNum (ofParse total));
              ("hasNext", VBool (lessThan page (Math_ceil_quot total limit)));
              ("hasPrev", VBool (1 <? page)) ]) ].

(** A paginated handler answered 200: both queries returned rows, the
    count query at least one, and the document is built from them.
    [countFirst] tells which of the two queries the handler submits
    first. *)
Definition paginatedAnswer (countFirst : bool) (rowsKey totalKey : string)
    (page limit : Z) (tr : list event) (resp : response) : Prop :=
  exists countText countParams pageText pageParams countRow countRest rows,
    tr = (if countFirst
          then [ Connected None;
                 Queried countText countParams (Rows (countRow :: countRest));
                 Queried pageText pageParams (Rows rows);
                 Ended ]
          else [ Connected None;
                 Queried pageText pageParams (Rows rows);
                 Queried countText countParams (Rows (countRow :: countRest));
                 Ended ])
    /\ resp = {| status := 200;
                 body := pagedBody rowsKey totalKey rows page limit
                           (parseIntField (lookup "total" countRow)) |}.

(** The database answers every query with at least one row. *)
Definition answersEverything (w : world) : Prop :=
  db_connect w = None
  /\ forall h text values, exists r rows, db_query w h text values = Rows (r :: rows).

(** What [LIMIT limit OFFSET offset] selects from the matching rows in
    the order of the query. *)
Definition pageRows (limit offset : Z) (matching : list row) : list row :=
  firstn (Z.to_nat limit) (skipn (Z.to_nat offset) matching).


(** ** Recent activity *)

(** The row carries a Date in its [timestamp] column, as node-postgres
    returns for a timestamp column that is not null. *)
Definition dated (r : row) : Prop :=
  exists t, lookup "timestamp" r = Some (CDate t).

(** The time value of a dated row. *)
Definition stamp (r : row) : Z :=
  match lookup "timestamp" r with
  | Some (CDate t) => t
  | _ => 0
  end.

Definition newestFirst (l : list row) : Prop :=
  StronglySorted (fun a b => stamp b <= stamp a) l.

(** [out] is a choice of the [N] most recent rows of [table], newest
    first: it is sorted, it has [N] rows (all of them when the table has
    fewer), and no row left out is more recent than a chosen one. *)
Definition mostRecent (N : Z) (table out : list row) : Prop :=
  newestFirst out
  /\ Z.of_nat (List.length out) = Z.min N (Z.of_nat (List.length table))
  /\ exists rest,
       Permutation table (out ++ rest)
       /\ forall x y, In x out -> In y rest -> stamp y <= stamp x.


(** ** Responses *)

(** The error response of [handleError]. *)
Definition serverError (context message : string) : response :=
  {| status := 500;
     body := VObj [ ("error", VStr "Internal server error");
                    ("message", VStr message);
                    ("context", VStr context) ] |}.

(** The not-found response. *)
Definition notFound (entity : string) : response :=
  {| status := 404; body := VObj [ ("error", VStr (entity ++ " not found")) ] |}.











(** ** Example databases *)

(** A database that has no rows for any query. *)
Definition idleWorld : world :=
  {| db_connect := None;
     db_query := fun _ _ _ => Rows [];
     Date_parse := fun _ => None |}.

(** The database refuses the connection. *)
Definition refusingWorld : world :=
  {| db_connect := Some "connect ECONNREFUSED";
     db_query := fun _ _ _ => Rows [];
     Date_parse := fun _ => None |}.

(** The page of ten of a 25-row table: the rows numbered from [first]. *)
Definition tenRows (first : Z) : list row :=
  map (fun i => [("user_id", CInt (first + Z.of_nat i))]) (seq 0 10).

(** 25 users match; the second page of ten is asked for. *)
Definition femaleWorld : world :=
  {| db_connect := None;
     db_query := fun _ text _ =>
       if String.prefix "SELECT COUNT" text then Rows [[("total", CStr "25")]]
       else Rows (tenRows 11);
     Date_parse := fun _ => None |}.

Definition aggregateRow : row :=
  [ ("total_users", CStr "3"); ("total_messages", CStr "12");
    ("unique_senders", CStr "2"); ("total_conversations", CStr "4");
    ("active_conversations", CStr "1"); ("ended_conversations", CStr "3");
    ("avg_messages_per_conversation", CStr "3.0000000000000000");
    ("conversations_today", CStr "0") ].


(** The summary relation is empty and the fallback aggregation fails. *)
Definition emptySummaryWorld : world :=
  {| db_connect := None;
     db_query := fun _ text _ =>
       if String.eqb text DashboardStats.conversationStatsQuery then Rows []
       else if String.eqb text DashboardStats.conversationStatsFallbackQuery
       then Failed "column message_count does not exist"
       else Rows [aggregateRow];
     Date_parse := fun _ => None |}.

(** The summary relation is empty, and the fallback aggregation fails
    the first time it is executed on the connection. *)
Definition flakyFallbackWorld : world :=
  {| db_connect := None;
     db_query := fun h text _ =>
       if String.eqb text DashboardStats.conversationStatsQuery then Rows []
       else if String.eqb text DashboardStats.conversationStatsFallbackQuery
       then (if Nat.eqb (executions text h) 0
             then Failed "deadlock detected" else Rows [aggregateRow])
       else Rows [aggregateRow];
     Date_parse := fun _ => None |}.

(** No conversation matches, and the messages cannot be read. *)
Definition unreadableMessagesWorld : world :=
  {| db_connect := None;
     db_query := fun _ text _ =>
       if String.eqb text ConversationDetails.messagesQuery
       then Failed "permission denied for table chat_logs"
       else Rows [];
     Date_parse := fun _ => None |}.

Definition activityRow (kind : string) (id time : Z) : row :=
  [ ("type", CStr kind); ("reference_id", CInt id); ("timestamp", CDate time) ].

(** Conversations at T3, T2, T1 and messages at T4, T0, T-1, with
    T-1 = 1000, T0 = 2000, ..., T4 = 6000. *)
Definition threeConversations : list row :=
  [ activityRow "conversation" 3 5000;
    activityRow "conversation" 2 4000;
    activityRow "conversation" 1 3000 ].

Definition threeMessages : list row :=
  [ activityRow "message" 3 6000;
    activityRow "message" 2 2000;
    activityRow "message" 1 1000 ].

Definition activityWorld : world :=
  {| db_connect := None;
     db_query := fun _ text _ =>
       if String.eqb text RecentActivity.recentConversationsQuery
       then Rows threeConversations
       else Rows threeMessages;
     Date_parse := fun _ => None |}.


(** ** Query text and request values *)

(** Two requests activate the same filters: every query-string key is
    non-empty in both or in neither. *)
Definition sameFilters (req1 req2 : request) : Prop :=
  forall k, nonEmpty (orEmpty (req_query req1 k)) = nonEmpty (orEmpty (req_query req2 k)).

(** Two routes are the same endpoint, whatever their path parameters,
    and the endpoint sends all its queries in one batch (so which queries
    are sent does not depend on what the database answers). *)
Definition sameBatchEndpoint (r1 r2 : route) : bool :=
  match r1, r2 with
  | GetUsers, GetUsers
  | GetConversations, GetConversations
  | GetConversationDetails _, GetConversationDetails _
  | GetMessages, GetMessages
  | GetUserConversations _, GetUserConversations _
  | GetSearchUsers _, GetSearchUsers _
  | GetRecentActivity, GetRecentActivity => true
  | _, _ => false
  end.

(** ** Identifier resolution *)

Definition byIdQuery : string := "SELECT * FROM usernames WHERE user_id = $1".
Definition byHandleQuery : string := "SELECT * FROM usernames WHERE username = $1".

(** The shape every handler has: connect, body, catch, finally. *)
Definition scoped (context : string) (body : M response) : M response :=
  tryFinally
    (tryCatch (bind client_connect (fun _ => body))
              (fun error => handleError error context))
    client_end.

End Spec.

(* ================================================================== *)
(** * More vocabulary: console, documents, decimal digits              *)
(* ================================================================== *)

Module Observe.
Import JS Env Http App Spec.

(** The lines written with [console.error], in order. *)
Fixpoint logs (tr : list event) : list string :=
  match tr with
  | Logged line :: tr' => line :: logs tr'
  | _ :: tr' => logs tr'
  | [] => []
  end.

(** [v.k1.k2...] in a response document. *)
Fixpoint path (keys : list string) (v : jsval) : option jsval :=
  match keys with
  | [] => Some v
  | k :: keys' =>
      match v with
      | VObj fields =>
          match lookup k fields with
          | Some v' => path keys' v'
          | None => None
          end
      | _ => None
      end
  end.

(** The digits of a decimal numeral, most significant first. *)
Fixpoint digitsOf (d : Decimal.uint) : list Z :=
  match d with
  | Decimal.Nil => []
  | Decimal.D0 d' => 0 :: digitsOf d'
  | Decimal.D1 d' => 1 :: digitsOf d'
  | Decimal.D2 d' => 2 :: digitsOf d'
  | Decimal.D3 d' => 3 :: digitsOf d'
  | Decimal.D4 d' => 4 :: digitsOf d'
  | Decimal.D5 d' => 5 :: digitsOf d'
  | Decimal.D6 d' => 6 :: digitsOf d'
  | Decimal.D7 d' => 7 :: digitsOf d'
  | Decimal.D8 d' => 8 :: digitsOf d'
  | Decimal.D9 d' => 9 :: digitsOf d'
  end.

(** The number that a string of decimal digits spells. *)
Definition spelled (ds : string) : Z := digitsValue 10 (fst (spanDigits 10 ds)).

(** How many queries a handler can execute on an open connection. *)
Definition queryCounts (r : route) : list nat :=
  match r with
  | GetDashboardStats => [4; 5; 6; 7]
  | GetUserDetails _ => [1; 4]
  | GetSearchUsers _ => [1]
  | GetAnalyticsUsage => [4]
  | _ => [2]
  end%nat.

(** The statement starts, after white space, with the keyword SELECT. *)
Definition isSelect (text : string) : bool := startsWith (trimStart text) "SELECT".

(** The paginated handlers: the name of the total in the summary, the
    effective page and the effective page size of a request. *)
Definition pagination (r : route) (req : request) : option (string * Z * Z) :=
  match r with
  | GetUsers => Some ("totalUsers", Users.page req, Users.limit req)
  | GetConversations =>
      Some ("totalConversations", Conversations.page req, Conversations.limit req)
  | GetMessages => Some ("totalMessages", Messages.page req, Messages.limit req)
  | GetUserConversations _ =>
      Some ("totalConversations", UserConversations.page req, UserConversations.limit req)
  | _ => None
  end.

(** ** More example databases *)

Definition aliceRow : row :=
  [ ("user_id", CInt 42); ("username", CStr "@alice"); ("gender", CStr "female") ].

(** One user matches the lookup, and each count is 3. *)
Definition aliceWorld : world :=
  {| db_connect := None;
     db_query := fun _ text _ =>
       if String.prefix "SELECT * FROM usernames" text then Rows [aliceRow]
       else Rows [[("conversation_count", CStr "3"); ("message_count", CStr "3")]];
     Date_parse := fun _ => None |}.

(** Nobody has written a message yet, and the message aggregate comes
    back without a row. *)
Definition silentWorld : world :=
  {| db_connect := None;
     db_query := fun _ text _ =>
       if String.eqb text DashboardStats.messageStatsQuery then Rows []
       else Rows [aggregateRow];
     Date_parse := fun _ => None |}.

End Observe.


(* ================================================================== *)
(** * Proof tools                                                      *)
(* ================================================================== *)

Import JS Env Http Spec App.

(** Symbolic execution of a handler: unfold the operations of the
    computation and case on the answers of the database, earliest
    first. *)
Ltac innermost_query :=
  match goal with
  | |- context [db_query ?w ?h ?t ?v] =>
      lazymatch h with
      | context [db_query] => fail
      | _ => let R := fresh "R" in destruct (db_query w h t v) as [?rows|?e] eqn:R
      end
  end.

Ltac exec :=
  cbv beta iota zeta delta
      [run bind tryCatch tryFinally both client_connect client_query client_end
       console_error emit ret throw handleError res_json res_status_json member
       all3 all4 engine DashboardStats.readConversationStats DashboardStats.shape];
  cbn [app fst snd].

Lemma length_positive {A} (a : A) (l : list A) :
  (0 <? Z.of_nat (List.length (a :: l))) = true.
Proof. apply Z.ltb_lt. simpl List.length. lia. Qed.

Ltac branch :=
  first
    [ innermost_query
    | match goal with
      | |- context [db_connect ?w] => destruct (db_connect w) eqn:?
      | |- context [firstRow ?x] => is_var x; destruct x; cbn [firstRow head]
      | |- context [match ?x with [] => _ | _ :: _ => _ end] => is_var x; destruct x
      | |- context [0 <? Z.of_nat (List.length (?a :: ?l))] =>
          rewrite (length_positive a l)
      | |- context [0 <? Z.of_nat (List.length (@nil ?A))] =>
          change (0 <? Z.of_nat (List.length (@nil A))) with false
      end ].

Ltac run_all := exec; repeat (branch; exec).


(* ================================================================== *)
(** * Reasoning about computations                                     *)
(* ================================================================== *)

Section Computations.
Open Scope monad_scope.

Lemma quiet_ret {A} (a : A) : quiet (ret a).
Proof. intros w h. exists []. simpl. rewrite app_nil_r. auto. Qed.

Lemma quiet_throw {A} (e : string) : quiet (@throw A e).
Proof. intros w h. exists []. simpl. rewrite app_nil_r. auto. Qed.

Lemma quiet_engine : quiet engine.
Proof. intros w h. exists []. simpl. rewrite app_nil_r. auto. Qed.

Lemma quiet_query (text : string) (values : list jsval) : quiet (client_query text values).
Proof.
  intros w h. eexists. simpl. split; [reflexivity|].
  constructor; simpl; auto.
Qed.

Lemma quiet_console_error (line : string) : quiet (console_error line).
Proof.
  intros w h. eexists. simpl. split; [reflexivity|].
  constructor; simpl; auto.
Qed.

Lemma quiet_member (o : option row) (k : string) : quiet (member o k).
Proof. destruct o; [apply quiet_ret | apply quiet_throw]. Qed.

Lemma quiet_bind {A B} (m : M A) (k : A -> M B) :
  quiet m -> (forall a, quiet (k a)) -> quiet (bind m k).
Proof.
  intros Hm Hk w h. unfold bind.
  destruct (Hm w h) as (es1 & E1 & F1).
  destruct (m w h) as [h1 [a|e]]; simpl in E1; subst h1.
  - destruct (Hk a w (h ++ es1)%list) as (es2 & E2 & F2).
    exists (es1 ++ es2)%list. rewrite E2, app_assoc.
    split; [reflexivity | apply Forall_app; auto].
  - exists es1. auto.
Qed.

Lemma quiet_tryCatch {A} (m : M A) (handler : string -> M A) :
  quiet m -> (forall e, quiet (handler e)) -> quiet (tryCatch m handler).
Proof.
  intros Hm Hk w h. unfold tryCatch.
  destruct (Hm w h) as (es1 & E1 & F1).
  destruct (m w h) as [h1 [a|e]]; simpl in E1; subst h1.
  - exists es1. auto.
  - destruct (Hk e w (h ++ es1)%list) as (es2 & E2 & F2).
    exists (es1 ++ es2)%list. rewrite E2, app_assoc.
    split; [reflexivity | apply Forall_app; auto].
Qed.

Lemma quiet_both {A B} (a : M A) (b : M B) : quiet a -> quiet b -> quiet (both a b).
Proof.
  intros Ha Hb w h. unfold both.
  destruct (Ha w h) as (es1 & E1 & F1).
  destruct (a w h) as [h1 ra]; simpl in E1; subst h1.
  destruct (Hb w (h ++ es1)%list) as (es2 & E2 & F2).
  destruct (b w (h ++ es1)%list) as [h2 rb]; simpl in E2; subst h2.
  exists (es1 ++ es2)%list. simpl. rewrite app_assoc.
  split; [reflexivity | apply Forall_app; auto].
Qed.

Lemma quiet_handleError (error context : string) : quiet (handleError error context).
Proof.
  unfold handleError, res_status_json.
  apply quiet_bind; [apply quiet_console_error | intros; apply quiet_ret].
Qed.

Lemma scoped_trace (context : string) (body : M response) (w : world) :
  quiet body ->
  exists es,
    fst (run (scoped context body) w) = (Connected (db_connect w) :: es ++ [Ended])%list
    /\ Forall inner es.
Proof.
  intros Hb. unfold run, scoped, tryFinally, tryCatch, bind, client_connect.
  simpl. destruct (db_connect w) as [e|].
  - destruct (quiet_handleError e context w [Connected (Some e)]) as (es & E & F).
    destruct (handleError e context w [Connected (Some e)]) as [h1 r]; simpl in E; subst h1.
    exists es. simpl. auto.
  - destruct (Hb w [Connected None]) as (es1 & E1 & F1).
    destruct (body w [Connected None]) as [h1 [a|e]]; simpl in E1; subst h1.
    + exists es1. simpl. auto.
    + destruct (quiet_handleError e context w (Connected None :: es1)) as (es & E & F).
      destruct (handleError e context w (Connected None :: es1)) as [h2 r];
        simpl in E; subst h2.
      exists (es1 ++ es)%list. simpl. rewrite <- app_assoc.
      split; [reflexivity | apply Forall_app; auto].
Qed.

End Computations.

(** Structural proofs that a computation only queries and logs. *)
Ltac quiet_step :=
  match goal with
  | |- quiet (bind _ _) => apply quiet_bind; [| intros]
  | |- quiet (both _ _) => apply quiet_both
  | |- quiet (tryCatch _ _) => apply quiet_tryCatch; [| intros]
  | |- quiet (client_query _ _) => apply quiet_query
  | |- quiet (member _ _) => apply quiet_member
  | |- quiet (ret _) => apply quiet_ret
  | |- quiet engine => apply quiet_engine
  | |- quiet (res_json _) => apply quiet_ret
  | |- quiet (res_status_json _ _) => apply quiet_ret
  | |- quiet (match ?x with _ => _ end) => destruct x
  | |- quiet (if ?x then _ else _) => destruct x
  | |- quiet _ => progress cbv zeta
  end.

Ltac quiet_tac := repeat quiet_step.


Section Scoping.
Open Scope monad_scope.

Lemma quiet_all3 {A B C} (a : M A) (b : M B) (c : M C) :
  quiet a -> quiet b -> quiet c -> quiet (all3 a b c).
Proof. intros. unfold all3. quiet_tac; auto. Qed.

Lemma quiet_all4 {A B C D} (a : M A) (b : M B) (c : M C) (d : M D) :
  quiet a -> quiet b -> quiet c -> quiet d -> quiet (all4 a b c d).
Proof. intros. unfold all4. quiet_tac; auto. Qed.

Lemma handlers_scoped (r : route) (req : request) :
  exists body, handle r req = scoped (context r) body /\ quiet body.
Proof.
  destruct r; simpl; eexists; (split; [reflexivity|]).
  - apply quiet_bind; [apply quiet_all4; apply quiet_query | intros].
    unfold DashboardStats.readConversationStats, DashboardStats.shape. quiet_tac.
  - quiet_tac.
  - quiet_tac. apply quiet_all3; apply quiet_query.
  - quiet_tac.
  - quiet_tac.
  - quiet_tac.
  - quiet_tac.
  - quiet_tac.
  - quiet_tac.
  - apply quiet_bind; [apply quiet_all4; apply quiet_query | intros].
    quiet_tac.
Qed.

Lemma scoped_counts (c : option string) (es : list event) :
  Forall inner es ->
  List.length (filter isConnect (Connected c :: es ++ [Ended])) = 1%nat
  /\ List.length (filter isEnd (Connected c :: es ++ [Ended])) = 1%nat
  /\ forall b, openAfter b (Connected c :: es ++ [Ended]) = false.
Proof.
  intros F.
  assert (H : filter isConnect es = [] /\ filter isEnd es = []
              /\ forall b, openAfter b (es ++ [Ended]) = false).
  { induction F as [|e es He F IH]; simpl; [auto|].
    destruct IH as (I1 & I2 & I3).
    destruct e; simpl in *; try contradiction; auto. }
  destruct H as (H1 & H2 & H3).
  simpl. rewrite !filter_app, H1, H2. simpl.
  repeat split; auto. intros b. destruct c; apply H3.
Qed.

(** C9. Every handler makes one connection attempt, as its first
    operation, and ends the client as its last operation on every path:
    no other connect or end occurs in the trace, and the connection is
    closed when the handler is done. *)
Theorem connection_acquired_once_and_released (r : route) (req : request) (w : world) :
  let tr := fst (run (handle r req) w) in
  (exists es, tr = (Connected (db_connect w) :: es ++ [Ended])%list /\ Forall inner es)
  /\ List.length (filter isConnect tr) = 1%nat
  /\ List.length (filter isEnd tr) = 1%nat
  /\ openAfter false tr = false.
Proof.
  intros tr. subst tr.
  destruct (handlers_scoped r req) as (body & E & Q). rewrite E.
  destruct (scoped_trace (context r) body w Q) as (es & Etr & F).
  rewrite Etr.
  destruct (scoped_counts (db_connect w) es F) as (C1 & C2 & C3).
  repeat split; eauto.
Qed.

End Scoping.

Section Parsing.
Open Scope monad_scope.

Lemma orElse_nonzero (n : option Z) (d : Z) : d <> 0 -> orElse n d <> 0.
Proof.
  intros Hd. unfold orElse. destruct n as [z|]; [|exact Hd].
  destruct (z =? 0) eqn:E; [exact Hd | apply Z.eqb_neq; exact E].
Qed.

Lemma orElse_cases (n : option Z) (d : Z) :
  (forall z, n = Some z -> z <> 0 -> orElse n d = z)
  /\ (n = Some 0 -> orElse n d = d)
  /\ (n = None -> orElse n d = d).
Proof.
  unfold orElse. repeat split.
  - intros z -> Hz. apply Z.eqb_neq in Hz. rewrite Hz. reflexivity.
  - intros ->. reflexivity.
  - intros ->. reflexivity.
Qed.

Lemma ceil_quot_nonzero (t l : Z) : l <> 0 -> Math_ceil_quot (Some t) l = Int (ceilDiv t l).
Proof. intros H. unfold Math_ceil_quot. apply Z.eqb_neq in H. rewrite H. reflexivity. Qed.

(** C3 (as the code has it). The effective page is [parseInt(page)] when
    that is a non-zero integer and 1 otherwise; the effective page size is
    [parseInt(limit)] when that is a non-zero integer and the default of
    the endpoint otherwise (20; 50 for messages; 10 for the user search).
    Neither is ever zero, so [total / limit] never divides by zero; a
    negative page or page size is used as it is. *)
Theorem page_and_limit_defaults (req : request) :
  let p := parseIntQuery (req_query req "page") in
  let l := parseIntQuery (req_query req "limit") in
  Users.page req = orElse p 1 /\ Users.limit req = orElse l 20
  /\ Conversations.page req = orElse p 1 /\ Conversations.limit req = orElse l 20
  /\ Messages.page req = orElse p 1 /\ Messages.limit req = orElse l 50
  /\ UserConversations.page req = orElse p 1 /\ UserConversations.limit req = orElse l 20
  /\ SearchUsers.limit req = orElse l 10 /\ RecentActivity.limit req = orElse l 20
  /\ (forall d, d <> 0 ->
        orElse l d <> 0
        /\ (forall z, l = Some z -> z <> 0 -> orElse l d = z)
        /\ (l = Some 0 \/ l = None -> orElse l d = d)
        /\ (forall t, Math_ceil_quot (Some t) (orElse l d) = Int (ceilDiv t (orElse l d))))
  /\ orElse p 1 <> 0
  /\ (forall z, p = Some z -> z <> 0 -> orElse p 1 = z)
  /\ (p = Some 0 \/ p = None -> orElse p 1 = 1).
Proof.
  intros p l.
  repeat (split; [reflexivity|]).
  split; [| split; [|split]].
  - intros d Hd. destruct (orElse_cases l d) as (C1 & C2 & C3).
    repeat split; auto.
    + apply orElse_nonzero; exact Hd.
    + intros [H|H]; auto.
    + intros t. apply ceil_quot_nonzero, orElse_nonzero, Hd.
  - apply orElse_nonzero. discriminate.
  - apply (orElse_cases p 1).
  - destruct (orElse_cases p 1) as (C1 & C2 & C3). intros [H|H]; auto.
Qed.

(** C3 (as stated) fails: a negative page or page size is not raised to
    1, and a zero page size becomes the default 20, not 1. *)
Lemma negative_page_and_limit_pass_through :
  let req := {| query := [("page", "-3"); ("limit", "-5")] |} in
  let zero := {| query := [("limit", "0")] |} in
  Users.page req = -3 /\ Users.limit req = -5
  /\ ~ (1 <= Users.page req) /\ ~ (1 <= Users.limit req)
  /\ (Users.page req - 1) * Users.limit req = 20
  /\ Math_ceil_quot (Some 10) (Users.limit req) = Int (-2)
  /\ Users.limit zero = 20.
Proof.
  cbv zeta.
  assert (P : Users.page {| query := [("page", "-3"); ("limit", "-5")] |} = -3)
    by (vm_compute; reflexivity).
  assert (L : Users.limit {| query := [("page", "-3"); ("limit", "-5")] |} = -5)
    by (vm_compute; reflexivity).
  rewrite P, L. repeat split; try lia; vm_compute; reflexivity.
Qed.

(** Segments made of a marker and anything after it are never numeric. *)
Lemma isNaN_marker (rest : string) : isNaN (String "@" rest) = true.
Proof.
  unfold isNaN, StringToNumber, trim.
  change (trimStart (String "@" rest)) with (String "@" rest).
  change (trimEnd (String "@" rest)) with (String "@" (trimEnd rest)).
  reflexivity.
Qed.

Lemma resolve_numeric (identifier : string) :
  isNaN identifier = false ->
  UserDetails.resolve identifier = (byIdQuery, VNum (ofParse (parseInt identifier))).
Proof. intros H. unfold UserDetails.resolve. rewrite H. reflexivity. Qed.

Lemma resolve_handle (identifier : string) :
  isNaN identifier = true ->
  UserDetails.resolve identifier =
    (byHandleQuery,
     VStr (if startsWith identifier "@" then identifier else "@" ++ identifier)).
Proof. intros H. unfold UserDetails.resolve. rewrite H. reflexivity. Qed.


Lemma user_lookup (identifier : string) (req : request) (w : world) :
  db_connect w = None ->
  (exists r rest,
     fst (run (UserDetails.handler identifier req) w) =
       Connected None
       :: Queried (fst (UserDetails.resolve identifier))
                  [snd (UserDetails.resolve identifier)] r
       :: rest)
  /\ (db_query w [Connected None] (fst (UserDetails.resolve identifier))
               [snd (UserDetails.resolve identifier)] = Rows [] ->
      run (UserDetails.handler identifier req) w =
        ([ Connected None;
           Queried (fst (UserDetails.resolve identifier))
                   [snd (UserDetails.resolve identifier)] (Rows []);
           Ended ],
         Return {| status := 404; body := VObj [("error", VStr "User not found")] |})).
Proof.
  intros Hc. unfold UserDetails.handler.
  destruct (UserDetails.resolve identifier) as [text param]. exec.
  rewrite Hc. exec. split.
  - innermost_query; exec; [|eauto].
    destruct rows as [|user rows]; exec; [eauto|].
    repeat (innermost_query; exec);
      repeat match goal with
             | |- context [firstRow ?x] => destruct (firstRow x); exec
             end; eauto.
  - intros Hq. rewrite Hq. reflexivity.
Qed.

End Parsing.

Section Digits.

Lemma digit_is_special_free (c : ascii) (d : Z) :
  radixDigit 10 c = Some d ->
  isStrWhiteSpaceChar c = false
  /\ c <> "x"%char /\ c <> "X"%char /\ c <> "o"%char /\ c <> "O"%char
  /\ c <> "b"%char /\ c <> "B"%char /\ c <> "+"%char /\ c <> "-"%char
  /\ c <> "."%char /\ Ascii.eqb c "I" = false.
Proof.
  destruct c as [[] [] [] [] [] [] [] []]; vm_compute; intros H;
    try discriminate H; repeat split; intros E; discriminate E.
Qed.

Lemma trimEnd_digits (s : string) : decimalDigits s = true -> trimEnd s = s.
Proof.
  induction s as [|c r IH]; simpl; [reflexivity|].
  destruct (radixDigit 10 c) as [d|] eqn:D; [|discriminate].
  intros H. rewrite (IH H).
  destruct (digit_is_special_free c d D) as (W & _). rewrite W. reflexivity.
Qed.

Lemma spanDigits_digits (s : string) :
  decimalDigits s = true ->
  exists ds, spanDigits 10 s = (ds, EmptyString) /\ List.length ds = String.length s.
Proof.
  induction s as [|c r IH]; simpl; [exists []; auto|].
  destruct (radixDigit 10 c) as [d|] eqn:D; [|discriminate].
  intros H. destruct (IH H) as (ds & E & L). rewrite E.
  exists (d :: ds). simpl. auto.
Qed.

Lemma prefix2_digits (p1 p2 c : ascii) (r : string) :
  decimalDigits r = true -> (forall d, radixDigit 10 p2 <> Some d) ->
  startsWith (String c r) (String p1 (String p2 EmptyString)) = false.
Proof.
  intros H P. unfold startsWith. simpl.
  destruct (ascii_dec p1 c); [|reflexivity].
  destruct r as [|c2 r2]; [reflexivity|]. simpl.
  destruct (ascii_dec p2 c2) as [->|]; [|reflexivity].
  simpl in H. destruct (radixDigit 10 c2) as [z|]; [|discriminate].
  exfalso. exact (P z eq_refl).
Qed.

Lemma prefix1_digits (p c : ascii) (r : string) :
  c <> p -> startsWith (String c r) (String p EmptyString) = false.
Proof.
  intros N. unfold startsWith. simpl.
  destruct (ascii_dec p c) as [->|]; [contradiction | reflexivity].
Qed.

(** A segment made of decimal digits only is numeric, and [parseInt]
    reads all of it. *)
Lemma digits_are_numeric (s : string) :
  s <> EmptyString -> decimalDigits s = true ->
  isNaN s = false
  /\ exists ds, spanDigits 10 s = (ds, EmptyString)
                /\ parseInt s = Some (digitsValue 10 ds).
Proof.
  intros N H. destruct s as [|c r]; [contradiction|].
  assert (H' := H). simpl in H'.
  destruct (radixDigit 10 c) as [d|] eqn:D; [|discriminate].
  destruct (digit_is_special_free c d D)
    as (W & Nx & NX & No & NO & Nb & NB & Nplus & Nminus & Ndot & NI).
  destruct (spanDigits_digits _ H) as (ds & E & L).
  assert (Ets : trimStart (String c r) = String c r) by (simpl; rewrite W; reflexivity).
  assert (P : forall p1 p2, (forall d, radixDigit 10 p2 <> Some d) ->
              startsWith (String c r) (String p1 (String p2 EmptyString)) = false)
    by (intros; apply prefix2_digits; auto).
  assert (Px : startsWith (String c r) "0x" = false) by (apply P; intros ?; discriminate).
  assert (PX : startsWith (String c r) "0X" = false) by (apply P; intros ?; discriminate).
  assert (Po : startsWith (String c r) "0o" = false) by (apply P; intros ?; discriminate).
  assert (PO : startsWith (String c r) "0O" = false) by (apply P; intros ?; discriminate).
  assert (Pb : startsWith (String c r) "0b" = false) by (apply P; intros ?; discriminate).
  assert (PB : startsWith (String c r) "0B" = false) by (apply P; intros ?; discriminate).
  assert (Pp : startsWith (String c r) "+" = false) by (apply prefix1_digits; auto).
  assert (Pm : startsWith (String c r) "-" = false) by (apply prefix1_digits; auto).
  destruct ds as [|d0 ds]; [simpl in L; discriminate|].
  split.
  - unfold isNaN, StringToNumber, trim. rewrite Ets, (trimEnd_digits _ H).
    unfold nonDecimalLiteral. rewrite Px, PX, Po, PO, Pb, PB.
    cbn [isEmpty orb]. rewrite Pp, Pm. cbn [orb].
    replace (String.eqb (String c r) "Infinity") with false
      by (simpl; rewrite NI; reflexivity).
    unfold unsignedDecimalLiteral. rewrite E.
    cbn [startsWith String.prefix exponentPart List.length Nat.add Nat.eqb negb].
    reflexivity.
  - exists (d0 :: ds). split; [exact E|].
    unfold parseInt. rewrite Ets, Pp, Pm. cbn [orb]. rewrite Px, PX. cbn [orb].
    rewrite E. f_equal. lia.
Qed.

End Digits.

Section Resolution.
Open Scope monad_scope.

(** C4. Identifier resolution of the single-user lookup: a segment that
    converts to a number is looked up by user id (in particular every
    segment of decimal digits, with its value); any other segment is
    looked up by handle, with the marker prepended exactly when the
    segment does not start with it, so a segment that carries the marker
    is used unchanged; and when the lookup returns no row the answer is
    404 with the body of the not-found case, after which the client is
    ended. *)
Theorem identifier_resolution (identifier : string) (req : request) (w : world) :
  (isNaN identifier = false ->
     UserDetails.resolve identifier = (byIdQuery, VNum (ofParse (parseInt identifier))))
  /\ (identifier <> "" -> decimalDigits identifier = true ->
     exists ds, spanDigits 10 identifier = (ds, "")
       /\ UserDetails.resolve identifier = (byIdQuery, VNum (Int (digitsValue 10 ds))))
  /\ (isNaN identifier = true -> startsWith identifier "@" = false ->
     UserDetails.resolve identifier = (byHandleQuery, VStr ("@" ++ identifier)))
  /\ (isNaN identifier = true -> startsWith identifier "@" = true ->
     UserDetails.resolve identifier = (byHandleQuery, VStr identifier))
  /\ (forall rest,
     UserDetails.resolve (String "@" rest) = (byHandleQuery, VStr (String "@" rest)))
  /\ (db_connect w = None ->
     (exists r rest,
        fst (run (UserDetails.handler identifier req) w) =
          Connected None
          :: Queried (fst (UserDetails.resolve identifier))
                     [snd (UserDetails.resolve identifier)] r
          :: rest)
     /\ (db_query w [Connected None] (fst (UserDetails.resolve identifier))
                  [snd (UserDetails.resolve identifier)] = Rows [] ->
         run (UserDetails.handler identifier req) w =
           ([ Connected None;
              Queried (fst (UserDetails.resolve identifier))
                      [snd (UserDetails.resolve identifier)] (Rows []);
              Ended ],
            Return {| status := 404;
                      body := VObj [("error", VStr "User not found")] |}))).
Proof.
  repeat split.
  - apply resolve_numeric.
  - intros N D. destruct (digits_are_numeric identifier N D) as (H & ds & E & P).
    exists ds. split; [exact E|]. rewrite (resolve_numeric _ H), P. reflexivity.
  - intros H S. rewrite (resolve_handle _ H), S. reflexivity.
  - intros H S. rewrite (resolve_handle _ H), S. reflexivity.
  - intros rest. rewrite (resolve_handle _ (isNaN_marker rest)).
    unfold startsWith. simpl. destruct rest; reflexivity.
  - apply (user_lookup identifier req w H).
  - apply (user_lookup identifier req w H).
Qed.

Example resolve_bare_handle :
  UserDetails.resolve "bob" = (byHandleQuery, VStr "@bob").
Proof. reflexivity. Qed.

Example resolve_marked_handle :
  UserDetails.resolve "@bob" = (byHandleQuery, VStr "@bob").
Proof. reflexivity. Qed.

Example resolve_digits :
  UserDetails.resolve "42" = (byIdQuery, VNum (Int 42)).
Proof. reflexivity. Qed.

(** C10. Whatever JavaScript's number coercion accepts is classified as a
    user id: when [isNaN] of the segment is false the lookup is by
    [user_id] with the parameter [parseInt] of the segment, and it is not
    the handle lookup. *)
Theorem coercible_segment_is_user_id (identifier : string) (req : request) (w : world) :
  isNaN identifier = false ->
  UserDetails.resolve identifier = (byIdQuery, VNum (ofParse (parseInt identifier)))
  /\ fst (UserDetails.resolve identifier) <> byHandleQuery
  /\ (db_connect w = None ->
      exists r rest,
        fst (run (UserDetails.handler identifier req) w) =
          Connected None
          :: Queried byIdQuery [VNum (ofParse (parseInt identifier))] r
          :: rest).
Proof.
  intros H. pose proof (resolve_numeric identifier H) as R.
  repeat split.
  - exact R.
  - rewrite R. discriminate.
  - intros Hc. destruct (user_lookup identifier req w Hc) as (F & _).
    rewrite R in F. exact F.
Qed.

(** C10 on the segment 12.5. *)
Lemma coercible_segment_fraction :
  isNaN "12.5" = false
  /\ UserDetails.resolve "12.5" = (byIdQuery, VNum (Int 12))
  /\ fst (UserDetails.resolve "12.5") <> byHandleQuery
  /\ (db_connect idleWorld = None ->
      exists r rest,
        fst (run (UserDetails.handler "12.5" {| query := [] |}) idleWorld) =
          Connected None :: Queried byIdQuery [VNum (Int 12)] r :: rest).
Proof.
  split; [reflexivity|].
  exact (coercible_segment_is_user_id "12.5" {| query := [] |} idleWorld eq_refl).
Defined.

Example coercible_segment_exponent :
  isNaN "1e2" = false /\ UserDetails.resolve "1e2" = (byIdQuery, VNum (Int 1)).
Proof. split; reflexivity. Qed.

Example coercible_segment_blank :
  isNaN " " = false /\ UserDetails.resolve " " = (byIdQuery, VNum NaN).
Proof. split; reflexivity. Qed.

End Resolution.

Section Builder.
Open Scope monad_scope.

Lemma slice0_drop2 {A} (l : list A) (a b : A) : slice0 (l ++ [a; b]) (-2) = l.
Proof.
  unfold slice0. change (-2 <? 0) with true. cbv iota.
  rewrite length_app. simpl List.length.
  replace (Z.max (Z.of_nat (List.length l + 2) + -2) 0)
    with (Z.of_nat (List.length l)) by lia.
  rewrite Nat2Z.id, firstn_app, Nat.sub_diag, firstn_all. simpl. apply app_nil_r.
Qed.


Ltac builds_cases :=
  repeat match goal with
         | |- context [nonEmpty ?s] =>
             is_var s; let E := fresh "E" in destruct (nonEmpty s) eqn:E
         end.

Ltac builds_tac :=
  builds_cases;
  cbn [activeCount List.filter active List.length];
  repeat split; intros;
  try discriminate;
  try match goal with H : ?x <> ?x |- _ => destruct (H eq_refl) end;
  vm_compute; reflexivity.

Lemma users_builds (search gender : string) :
  builds (usersFilters search gender) (Users.filters search gender).
Proof. unfold builds, Users.filters, usersFilters. builds_tac. Qed.

Lemma conversations_builds (status search : string) :
  builds (conversationsFilters status search) (Conversations.filters status search).
Proof. unfold builds, Conversations.filters, conversationsFilters. builds_tac. Qed.

Lemma messages_builds (conversationId userId search dateFrom dateTo : string) :
  builds (messagesFilters conversationId userId search dateFrom dateTo)
         (Messages.filters conversationId userId search dateFrom dateTo).
Proof. unfold builds, Messages.filters, messagesFilters. builds_tac. Qed.


Ltac texts_tac :=
  builds_cases; repeat split; vm_compute; reflexivity.

Lemma users_texts (search gender : string) :
  let '(whereClause, queryParams, paramIndex) := Users.filters search gender in
  nodup Z.eq_dec (placeholders (Users.countQuery whereClause))
    = indices (List.length queryParams)
  /\ nodup Z.eq_dec (placeholders (Users.usersQuery whereClause paramIndex))
    = indices (List.length queryParams + 2).
Proof. unfold Users.filters. texts_tac. Qed.

Lemma conversations_texts (status search : string) :
  let '(whereClause, queryParams, paramIndex) := Conversations.filters status search in
  nodup Z.eq_dec (placeholders (Conversations.countQuery whereClause))
    = indices (List.length queryParams)
  /\ nodup Z.eq_dec (placeholders (Conversations.conversationsQuery whereClause paramIndex))
    = indices (List.length queryParams + 2).
Proof. unfold Conversations.filters. texts_tac. Qed.

Lemma messages_texts (conversationId userId search dateFrom dateTo : string) :
  let '(whereClause, queryParams, paramIndex) :=
    Messages.filters conversationId userId search dateFrom dateTo in
  nodup Z.eq_dec (placeholders (Messages.countQuery whereClause))
    = indices (List.length queryParams)
  /\ nodup Z.eq_dec (placeholders (Messages.messagesQuery whereClause paramIndex))
    = indices (List.length queryParams + 2).
Proof. unfold Messages.filters. texts_tac. Qed.

Ltac paged_tac Hc :=
  exec; rewrite Hc; exec; rewrite slice0_drop2;
  repeat (innermost_query; exec);
  repeat match goal with
         | |- context [firstRow ?x] => destruct (firstRow x); exec
         end;
  unfold pagedQueries; eauto.

Lemma users_paged (req : request) (w : world) :
  db_connect w = None ->
  let '(whereClause, queryParams, paramIndex) :=
    Users.filters (orEmpty (req_query req "search")) (orEmpty (req_query req "gender")) in
  pagedQueries (fst (run (Users.handler req) w))
    (Users.countQuery whereClause) (Users.usersQuery whereClause paramIndex)
    queryParams (Users.limit req) ((Users.page req - 1) * Users.limit req).
Proof.
  intros Hc. unfold Users.handler.
  destruct (Users.filters _ _) as [[whereClause queryParams] paramIndex].
  paged_tac Hc.
Qed.

Lemma conversations_paged (req : request) (w : world) :
  db_connect w = None ->
  let '(whereClause, queryParams, paramIndex) :=
    Conversations.filters (orEmpty (req_query req "status"))
                          (orEmpty (req_query req "search")) in
  pagedQueries (fst (run (Conversations.handler req) w))
    (Conversations.countQuery whereClause)
    (Conversations.conversationsQuery whereClause paramIndex)
    queryParams (Conversations.limit req)
    ((Conversations.page req - 1) * Conversations.limit req).
Proof.
  intros Hc. unfold Conversations.handler.
  destruct (Conversations.filters _ _) as [[whereClause queryParams] paramIndex].
  paged_tac Hc.
Qed.

Lemma messages_paged (req : request) (w : world) :
  db_connect w = None ->
  let '(whereClause, queryParams, paramIndex) :=
    Messages.filters (orEmpty (req_query req "conversation_id"))
                     (orEmpty (req_query req "user_id"))
                     (orEmpty (req_query req "search"))
                     (orEmpty (req_query req "date_from"))
                     (orEmpty (req_query req "date_to")) in
  pagedQueries (fst (run (Messages.handler req) w))
    (Messages.countQuery whereClause) (Messages.messagesQuery whereClause paramIndex)
    queryParams (Messages.limit req) ((Messages.page req - 1) * Messages.limit req).
Proof.
  intros Hc. unfold Messages.handler.
  destruct (Messages.filters _ _ _ _ _) as [[whereClause queryParams] paramIndex].
  paged_tac Hc.
Qed.

Lemma user_conversations_paged (userId : string) (req : request) (w : world) :
  db_connect w = None ->
  exists r1 r2 rest,
    fst (run (UserConversations.handler userId req) w) =
      Connected None
      :: Queried UserConversations.conversationsQuery
                 ([VNum (ofParse (parseInt userId))]
                  ++ [VNum (Int (UserConversations.limit req));
                      VNum (Int ((UserConversations.page req - 1)
                                 * UserConversations.limit req))])%list r1
      :: Queried UserConversations.countQuery [VNum (ofParse (parseInt userId))] r2
      :: rest.
Proof.
  intros Hc. unfold UserConversations.handler. exec. rewrite Hc. exec.
  repeat (innermost_query; exec);
    repeat match goal with
           | |- context [firstRow ?x] => destruct (firstRow x); exec
           end;
    eauto.
Qed.

(** C1. The predicate builders of the three filtered list endpoints
    (users, conversations, messages) produce exactly the predicate of the
    contract: the empty string when no filter is active, otherwise the
    conditions of the active filters in declaration order, the first
    introduced by WHERE (after the blank that separates the clause from
    the relation name) and the following ones by AND, the k-th active
    condition carrying the placeholder $k; the parameter list has one
    entry per active filter, in the same order. The page query numbers
    LIMIT and OFFSET with the next two indices and is sent with the
    parameter list followed by limit and offset; the count query is sent
    with that list without its last two entries. The conversation list of
    a user, which has no optional filter, sends its fixed queries the same
    way: the user id, limit and offset to the page query and the user id
    alone to the count query. *)
Theorem filter_predicate_builder :
  (forall search gender,
      builds (usersFilters search gender) (Users.filters search gender))
  /\ (forall status search,
      builds (conversationsFilters status search) (Conversations.filters status search))
  /\ (forall conversationId userId search dateFrom dateTo,
      builds (messagesFilters conversationId userId search dateFrom dateTo)
             (Messages.filters conversationId userId search dateFrom dateTo))
  /\ (forall search gender,
      let '(whereClause, queryParams, paramIndex) := Users.filters search gender in
      nodup Z.eq_dec (placeholders (Users.countQuery whereClause))
        = indices (List.length queryParams)
      /\ nodup Z.eq_dec (placeholders (Users.usersQuery whereClause paramIndex))
        = indices (List.length queryParams + 2))
  /\ (forall status search,
      let '(whereClause, queryParams, paramIndex) := Conversations.filters status search in
      nodup Z.eq_dec (placeholders (Conversations.countQuery whereClause))
        = indices (List.length queryParams)
      /\ nodup Z.eq_dec
           (placeholders (Conversations.conversationsQuery whereClause paramIndex))
        = indices (List.length queryParams + 2))
  /\ (forall conversationId userId search dateFrom dateTo,
      let '(whereClause, queryParams, paramIndex) :=
        Messages.filters conversationId userId search dateFrom dateTo in
      nodup Z.eq_dec (placeholders (Messages.countQuery whereClause))
        = indices (List.length queryParams)
      /\ nodup Z.eq_dec (placeholders (Messages.messagesQuery whereClause paramIndex))
        = indices (List.length queryParams + 2))
  /\ (forall req w, db_connect w = None ->
      let '(whereClause, queryParams, paramIndex) :=
        Users.filters (orEmpty (req_query req "search"))
                      (orEmpty (req_query req "gender")) in
      pagedQueries (fst (run (Users.handler req) w))
        (Users.countQuery whereClause) (Users.usersQuery whereClause paramIndex)
        queryParams (Users.limit req) ((Users.page req - 1) * Users.limit req))
  /\ (forall req w, db_connect w = None ->
      let '(whereClause, queryParams, paramIndex) :=
        Conversations.filters (orEmpty (req_query req "status"))
                              (orEmpty (req_query req "search")) in
      pagedQueries (fst (run (Conversations.handler req) w))
        (Conversations.countQuery whereClause)
        (Conversations.conversationsQuery whereClause paramIndex)
        queryParams (Conversations.limit req)
        ((Conversations.page req - 1) * Conversations.limit req))
  /\ (forall req w, db_connect w = None ->
      let '(whereClause, queryParams, paramIndex) :=
        Messages.filters (orEmpty (req_query req "conversation_id"))
                         (orEmpty (req_query req "user_id"))
                         (orEmpty (req_query req "search"))
                         (orEmpty (req_query req "date_from"))
                         (orEmpty (req_query req "date_to")) in
      pagedQueries (fst (run (Messages.handler req) w))
        (Messages.countQuery whereClause) (Messages.messagesQuery whereClause paramIndex)
        queryParams (Messages.limit req) ((Messages.page req - 1) * Messages.limit req))
  /\ (forall userId req w, db_connect w = None ->
      exists r1 r2 rest,
        fst (run (UserConversations.handler userId req) w) =
          Connected None
          :: Queried UserConversations.conversationsQuery
                     ([VNum (ofParse (parseInt userId))]
                      ++ [VNum (Int (UserConversations.limit req));
                          VNum (Int ((UserConversations.page req - 1)
                                     * UserConversations.limit req))])%list r1
          :: Queried UserConversations.countQuery [VNum (ofParse (parseInt userId))] r2
          :: rest)
  /\ nodup Z.eq_dec (placeholders UserConversations.conversationsQuery) = indices 3
  /\ nodup Z.eq_dec (placeholders UserConversations.countQuery) = indices 1.
Proof.
  split; [exact users_builds|].
  split; [exact conversations_builds|].
  split; [exact messages_builds|].
  split; [exact users_texts|].
  split; [exact conversations_texts|].
  split; [exact messages_texts|].
  split; [exact users_paged|].
  split; [exact conversations_paged|].
  split; [exact messages_paged|].
  split; [exact user_conversations_paged|].
  split; vm_compute; reflexivity.
Qed.

Example messages_filters_example :
  Messages.filters "c" "7" "hi" "" "2020" =
  (" WHERE conversation_id = $1 AND  (sender_user_id = $2 OR receiver_user_id = $2) AND  message ILIKE $3 AND  timestamp <= $4",
   [VStr "c"; VNum (Int 7); VStr "%hi%"; VStr "2020"], 5).
Proof. reflexivity. Qed.

End Builder.

Section Pagination.
Open Scope monad_scope.

Lemma ceilDiv_floor (t l : Z) : l <> 0 -> ceilDiv t l = - ((- t) / l).
Proof.
  intros Hl. unfold ceilDiv, Qceiling, Qfloor, Qdiv, Qinv, Qmult, Qopp, inject_Z.
  destruct l as [|p|p]; [contradiction| |]; simpl Qnum; simpl Qden.
  - rewrite Z.mul_1_r. reflexivity.
  - change (Zpos (1 * p)) with (Zpos p).
    replace (- (t * -1)) with t by lia.
    change (Zneg p) with (- Zpos p).
    rewrite Z.div_opp_opp by discriminate. reflexivity.
Qed.

Lemma ceilDiv_bounds (t l : Z) :
  l <> 0 ->
  (0 < l -> (ceilDiv t l - 1) * l < t <= ceilDiv t l * l)
  /\ (l < 0 -> ceilDiv t l * l <= t < (ceilDiv t l - 1) * l).
Proof.
  intros Hl. rewrite (ceilDiv_floor t l Hl).
  pose proof (Z.div_mod (- t) l Hl) as D.
  split; intros S.
  - pose proof (Z.mod_pos_bound (- t) l S). nia.
  - pose proof (Z.mod_neg_bound (- t) l S). nia.
Qed.

Lemma ceilDiv_zero (l : Z) : l <> 0 -> ceilDiv 0 l = 0.
Proof.
  intros Hl. rewrite ceilDiv_floor by exact Hl.
  change (- 0) with 0. rewrite Zdiv_0_l. reflexivity.
Qed.

Lemma ceilDiv_rational (t l : Z) :
  (inject_Z (ceilDiv t l - 1) < inject_Z t / inject_Z l)%Q
  /\ (inject_Z t / inject_Z l <= inject_Z (ceilDiv t l))%Q.
Proof. unfold ceilDiv. split; [apply Qceiling_lt | apply Qle_ceiling]. Qed.

Lemma beyond_last_is_empty (page limit : Z) (matching : list row) :
  0 < limit -> ceilDiv (Z.of_nat (List.length matching)) limit < page ->
  pageRows limit ((page - 1) * limit) matching = [].
Proof.
  intros Hl Hp. unfold pageRows.
  assert (Hne : limit <> 0) by lia.
  destruct (ceilDiv_bounds (Z.of_nat (List.length matching)) limit Hne) as (B & _).
  specialize (B Hl).
  rewrite skipn_all2; [apply firstn_nil | nia].
Qed.


Ltac refute_world :=
  match goal with
  | H : answersEverything ?w |- _ =>
      let Hc := fresh "Hc" in let Hq := fresh "Hq" in
      destruct H as [Hc Hq];
      try congruence;
      match goal with
      | R : db_query w ?h ?t ?v = _ |- _ =>
          destruct (Hq h t v) as (? & ? & ?); congruence
      end
  end.

Ltac answer_tac :=
  exec;
  match goal with |- context [db_connect ?w] => destruct (db_connect w) eqn:? end;
  exec;
  repeat (innermost_query; exec);
  try match goal with
      | |- context [firstRow ?x] => destruct x; cbn [firstRow head]; exec
      end;
  eexists; (split; [reflexivity|]);
  (split; [ cbn [status]; intros H; try discriminate H;
            unfold paginatedAnswer; repeat eexists; reflexivity
          | intros H; try reflexivity; refute_world ]).

Lemma users_answer (req : request) (w : world) :
  exists resp,
    snd (run (Users.handler req) w) = Return resp
    /\ (status resp = 200 ->
        paginatedAnswer true "users" "totalUsers" (Users.page req) (Users.limit req)
                        (fst (run (Users.handler req) w)) resp)
    /\ (answersEverything w -> status resp = 200).
Proof.
  unfold Users.handler.
  destruct (Users.filters _ _) as [[whereClause queryParams] paramIndex].
  answer_tac.
Qed.

Lemma conversations_answer (req : request) (w : world) :
  exists resp,
    snd (run (Conversations.handler req) w) = Return resp
    /\ (status resp = 200 ->
        paginatedAnswer true "conversations" "totalConversations"
                        (Conversations.page req) (Conversations.limit req)
                        (fst (run (Conversations.handler req) w)) resp)
    /\ (answersEverything w -> status resp = 200).
Proof.
  unfold Conversations.handler.
  destruct (Conversations.filters _ _) as [[whereClause queryParams] paramIndex].
  answer_tac.
Qed.

Lemma messages_answer (req : request) (w : world) :
  exists resp,
    snd (run (Messages.handler req) w) = Return resp
    /\ (status resp = 200 ->
        paginatedAnswer true "messages" "totalMessages" (Messages.page req) (Messages.limit req)
                        (fst (run (Messages.handler req) w)) resp)
    /\ (answersEverything w -> status resp = 200).
Proof.
  unfold Messages.handler.
  destruct (Messages.filters _ _ _ _ _) as [[whereClause queryParams] paramIndex].
  answer_tac.
Qed.


Lemma user_conversations_answer (userId : string) (req : request) (w : world) :
  exists resp,
    snd (run (UserConversations.handler userId req) w) = Return resp
    /\ (status resp = 200 ->
        paginatedAnswer false "conversations" "totalConversations"
                        (UserConversations.page req) (UserConversations.limit req)
                        (fst (run (UserConversations.handler userId req) w)) resp)
    /\ (answersEverything w -> status resp = 200).
Proof. unfold UserConversations.handler. answer_tac. Qed.

Lemma summary_arithmetic (page limit t : Z) :
  limit <> 0 ->
  Math_ceil_quot (Some t) limit = Int (ceilDiv t limit)
  /\ (inject_Z (ceilDiv t limit - 1) < inject_Z t / inject_Z limit)%Q
  /\ (inject_Z t / inject_Z limit <= inject_Z (ceilDiv t limit))%Q
  /\ (0 < limit -> (ceilDiv t limit - 1) * limit < t <= ceilDiv t limit * limit)
  /\ (limit < 0 -> ceilDiv t limit * limit <= t < (ceilDiv t limit - 1) * limit)
  /\ (t = 0 -> ceilDiv t limit = 0)
  /\ lessThan page (Int (ceilDiv t limit)) = (page <? ceilDiv t limit)
  /\ (ceilDiv t limit < page -> lessThan page (Int (ceilDiv t limit)) = false).
Proof.
  intros Hl.
  destruct (ceilDiv_bounds t limit Hl) as (B1 & B2).
  destruct (ceilDiv_rational t limit) as (Q1 & Q2).
  repeat split; auto; try (apply B1; assumption); try (apply B2; assumption).
  - apply ceil_quot_nonzero; exact Hl.
  - intros ->. apply ceilDiv_zero; exact Hl.
  - intros H. simpl. apply Z.ltb_ge. lia.
Qed.

(** C2. Whenever one of the four paginated handlers answers 200, its
    document holds the fetched rows and the summary
    currentPage = page, totalPages = ceil(total / limit),
    total = the parsed count, hasNext = (page < totalPages) and
    hasPrev = (page > 1), and it does answer 200 when the database
    answers its queries with rows. For every count and every non-zero
    limit, ceil(total / limit) is the integer n with
    n - 1 < total / limit <= n, it is 0 when the count is 0, and a page
    beyond it has hasNext = false; with a positive limit the page query
    of such a page selects no row. *)
Theorem pagination_summary :
  (forall req w, exists resp,
      snd (run (Users.handler req) w) = Return resp
      /\ (status resp = 200 ->
          paginatedAnswer true "users" "totalUsers" (Users.page req) (Users.limit req)
                          (fst (run (Users.handler req) w)) resp)
      /\ (answersEverything w -> status resp = 200))
  /\ (forall req w, exists resp,
      snd (run (Conversations.handler req) w) = Return resp
      /\ (status resp = 200 ->
          paginatedAnswer true "conversations" "totalConversations"
                          (Conversations.page req) (Conversations.limit req)
                          (fst (run (Conversations.handler req) w)) resp)
      /\ (answersEverything w -> status resp = 200))
  /\ (forall req w, exists resp,
      snd (run (Messages.handler req) w) = Return resp
      /\ (status resp = 200 ->
          paginatedAnswer true "messages" "totalMessages"
                          (Messages.page req) (Messages.limit req)
                          (fst (run (Messages.handler req) w)) resp)
      /\ (answersEverything w -> status resp = 200))
  /\ (forall userId req w, exists resp,
      snd (run (UserConversations.handler userId req) w) = Return resp
      /\ (status resp = 200 ->
          paginatedAnswer false "conversations" "totalConversations"
                          (UserConversations.page req) (UserConversations.limit req)
                          (fst (run (UserConversations.handler userId req) w)) resp)
      /\ (answersEverything w -> status resp = 200))
  /\ (forall page limit t, limit <> 0 ->
      Math_ceil_quot (Some t) limit = Int (ceilDiv t limit)
      /\ (inject_Z (ceilDiv t limit - 1) < inject_Z t / inject_Z limit)%Q
      /\ (inject_Z t / inject_Z limit <= inject_Z (ceilDiv t limit))%Q
      /\ (0 < limit -> (ceilDiv t limit - 1) * limit < t <= ceilDiv t limit * limit)
      /\ (limit < 0 -> ceilDiv t limit * limit <= t < (ceilDiv t limit - 1) * limit)
      /\ (t = 0 -> ceilDiv t limit = 0)
      /\ lessThan page (Int (ceilDiv t limit)) = (page <? ceilDiv t limit)
      /\ (ceilDiv t limit < page -> lessThan page (Int (ceilDiv t limit)) = false))
  /\ (forall page limit matching,
      0 < limit -> ceilDiv (Z.of_nat (List.length matching)) limit < page ->
      pageRows limit ((page - 1) * limit) matching = []).
Proof.
  split; [exact users_answer|].
  split; [exact conversations_answer|].
  split; [exact messages_answer|].
  split; [exact user_conversations_answer|].
  split; [exact summary_arithmetic | exact beyond_last_is_empty].
Qed.

Example second_page_of_25 :
  snd (run (Users.handler
              {| query := [("page", "2"); ("limit", "10"); ("gender", "female")] |})
           femaleWorld)
  = Return {| status := 200;
              body := VObj
                [ ("users", ofRows (tenRows 11));
                  ("pagination",
                   VObj [ ("currentPage", VNum (Int 2));
                          ("totalPages", VNum (Int 3));
                          ("totalUsers", VNum (Int 25));
                          ("hasNext", VBool true);
                          ("hasPrev", VBool true) ]) ] |}.
Proof. vm_compute. reflexivity. Qed.

End Pagination.

Section Activity.
Open Scope monad_scope.

Variable w : world.

Lemma after_dated (a b : row) :
  dated a -> dated b ->
  after (RecentActivity.byTimestampDesc w) a b = (stamp a <? stamp b).
Proof.
  intros [ta Ha] [tb Hb].
  unfold after, RecentActivity.byTimestampDesc, stamp. rewrite Ha, Hb. simpl.
  destruct (0 <? tb - ta) eqn:E; symmetry.
  - apply Z.ltb_lt in E. apply Z.ltb_lt. lia.
  - apply Z.ltb_ge in E. apply Z.ltb_ge. lia.
Qed.

Lemma insert_perm (a : row) (l : list row) :
  Permutation (a :: l) (insert (RecentActivity.byTimestampDesc w) a l).
Proof.
  induction l as [|b l IH]; simpl; [apply Permutation_refl|].
  destruct (after _ a b).
  - eapply perm_trans; [apply perm_swap | apply perm_skip, IH].
  - apply Permutation_refl.
Qed.

Lemma sort_perm (l : list row) :
  Permutation l (sort (RecentActivity.byTimestampDesc w) l).
Proof.
  induction l as [|a l IH]; simpl; [constructor|].
  eapply perm_trans; [apply perm_skip, IH | apply insert_perm].
Qed.

Lemma insert_sorted (a : row) (l : list row) :
  dated a -> Forall dated l -> newestFirst l ->
  newestFirst (insert (RecentActivity.byTimestampDesc w) a l).
Proof.
  intros Da Dl Sl. induction Sl as [|b l Sl IH Hb]; simpl.
  - repeat constructor.
  - inversion Dl as [|? ? Db Dl']; subst.
    rewrite (after_dated a b Da Db).
    destruct (stamp a <? stamp b) eqn:E.
    + apply Z.ltb_lt in E. constructor; [apply IH; exact Dl'|].
      eapply Permutation_Forall; [apply insert_perm|].
      constructor; [lia | exact Hb].
    + apply Z.ltb_ge in E. constructor; [constructor; assumption|].
      constructor; [exact E|].
      eapply Forall_impl; [|exact Hb]. simpl. intros c Hc. lia.
Qed.

Lemma sort_sorted (l : list row) :
  Forall dated l -> newestFirst (sort (RecentActivity.byTimestampDesc w) l).
Proof.
  induction l as [|a l IH]; simpl; intros D; [constructor|].
  inversion D as [|? ? Da Dl]; subst.
  apply insert_sorted; auto.
  eapply Permutation_Forall; [apply sort_perm | exact Dl].
Qed.

End Activity.

Section Selection.

Lemma newestFirst_app (l1 l2 : list row) :
  newestFirst (l1 ++ l2) ->
  newestFirst l1 /\ forall x y, In x l1 -> In y l2 -> stamp y <= stamp x.
Proof.
  induction l1 as [|a l1 IH]; simpl; intros S.
  - split; [constructor | intros x y []].
  - inversion S as [|? ? S' F]; subst. destruct (IH S') as (S1 & D).
    apply Forall_app in F. destruct F as (F1 & F2).
    split; [constructor; assumption|].
    intros x y [<-|Hx] Hy; [|apply D; assumption].
    rewrite Forall_forall in F2. apply F2. exact Hy.
Qed.

Lemma newestFirst_threshold (t : Z) (l : list row) :
  newestFirst l ->
  l = (filter (fun a => t <=? stamp a) l ++ filter (fun a => negb (t <=? stamp a)) l)%list.
Proof.
  induction 1 as [|a l S IH F]; simpl; [reflexivity|].
  destruct (t <=? stamp a) eqn:E; simpl.
  - f_equal. exact IH.
  - apply Z.leb_gt in E.
    assert (Hnone : filter (fun a => t <=? stamp a) l = []).
    { clear IH S. induction F as [|b l Hb F IHF]; simpl; [reflexivity|].
      replace (t <=? stamp b) with false by (symmetry; apply Z.leb_gt; lia).
      exact IHF. }
    assert (Hall : filter (fun a => negb (t <=? stamp a)) l = l).
    { clear IH S Hnone. induction F as [|b l Hb F IHF]; simpl; [reflexivity|].
      replace (t <=? stamp b) with false by (symmetry; apply Z.leb_gt; lia).
      simpl. f_equal. exact IHF. }
    rewrite Hnone, Hall. reflexivity.
Qed.

Lemma filter_length_perm (p : row -> bool) (l l' : list row) :
  Permutation l l' -> List.length (filter p l) = List.length (filter p l').
Proof.
  induction 1; simpl; auto.
  - destruct (p x); simpl; auto.
  - destruct (p x), (p y); simpl; auto.
  - congruence.
Qed.

Lemma filter_all (p : row -> bool) (l : list row) :
  (forall a, In a l -> p a = true) -> filter p l = l.
Proof.
  induction l as [|a l IH]; simpl; intros H; [reflexivity|].
  rewrite (H a (or_introl eq_refl)). f_equal. apply IH. auto.
Qed.

(** In a list sorted newest first, the first [n] rows are no older than
    [t] when the list holds at least [n] rows no older than [t]. *)
Lemma front_bound (t : Z) (n : nat) (S A B : list row) :
  newestFirst S -> Permutation S (A ++ B) ->
  (forall a, In a A -> t <= stamp a) -> (n <= List.length A)%nat ->
  forall x, In x (firstn n S) -> t <= stamp x.
Proof.
  intros HS HP HA Hn x Hx.
  set (p := fun a : row => t <=? stamp a).
  assert (Hlen : (n <= List.length (filter p S))%nat).
  { rewrite (filter_length_perm p _ _ HP), filter_app, length_app.
    rewrite (filter_all p A); [lia|].
    intros a Ha. apply Z.leb_le. auto. }
  rewrite (newestFirst_threshold t S HS) in Hx. fold p in Hx.
  rewrite firstn_app in Hx.
  replace (n - List.length (filter p S))%nat with 0%nat in Hx by lia.
  simpl in Hx. rewrite app_nil_r in Hx.
  assert (Hin : In x (filter p S)).
  { rewrite <- (firstn_skipn n (filter p S)). apply in_or_app. left. exact Hx. }
  apply filter_In in Hin. destruct Hin as (_ & Hp). apply Z.leb_le. exact Hp.
Qed.


Lemma slice0_positive {A} (l : list A) (N : Z) :
  0 < N -> slice0 l N = firstn (Z.to_nat N) l.
Proof.
  intros HN. unfold slice0.
  replace (N <? 0) with false by (symmetry; apply Z.ltb_ge; lia).
  destruct (Z.le_gt_cases N (Z.of_nat (List.length l))) as [H|H].
  - rewrite Z.min_l by exact H. reflexivity.
  - rewrite Z.min_r by lia. rewrite Nat2Z.id, firstn_all.
    rewrite firstn_all2; [reflexivity | lia].
Qed.

Lemma mostRecent_dated (N : Z) (table out : list row) :
  Forall dated table -> mostRecent N table out -> Forall dated out.
Proof.
  intros D (_ & _ & rest & P & _).
  pose proof (Permutation_Forall P D) as D'. apply Forall_app in D'. tauto.
Qed.

Lemma merge_most_recent (w : world) (N : Z) (C M convs msgs : list row) :
  0 < N -> Forall dated C -> Forall dated M ->
  mostRecent N C convs -> mostRecent N M msgs ->
  mostRecent N (C ++ M) (RecentActivity.merge w N convs msgs).
Proof.
  intros HN DC DM HC HM.
  pose proof (mostRecent_dated N C convs DC HC) as Dc.
  pose proof (mostRecent_dated N M msgs DM HM) as Dm.
  destruct HC as (Sc & Lc & restC & Pc & Bc).
  destruct HM as (Sm & Lm & restM & Pm & Bm).
  unfold RecentActivity.merge. rewrite slice0_positive by exact HN.
  set (S := sort (RecentActivity.byTimestampDesc w) (convs ++ msgs)).
  assert (PS : Permutation (convs ++ msgs) S) by apply sort_perm.
  assert (SS : newestFirst S)
    by (apply sort_sorted; apply Forall_app; split; assumption).
  set (n := Z.to_nat N).
  assert (Split : S = (firstn n S ++ skipn n S)%list)
    by (symmetry; apply firstn_skipn).
  pose proof SS as SS'. rewrite Split in SS'.
  destruct (newestFirst_app _ _ SS') as (Sout & Btail).
  pose proof (Permutation_length Pc) as LPc. rewrite length_app in LPc.
  pose proof (Permutation_length Pm) as LPm. rewrite length_app in LPm.
  pose proof (Permutation_length PS) as LPS. rewrite length_app in LPS.
  split; [exact Sout | split].
  - rewrite length_firstn, length_app. subst n. lia.
  - exists (skipn n S ++ restC ++ restM)%list. split.
    + rewrite app_assoc, <- Split.
      rewrite Pc, Pm, <- PS.
      rewrite <- !app_assoc. apply Permutation_app_head.
      rewrite !app_assoc. apply Permutation_app_tail.
      apply Permutation_app_comm.
    + intros x y Hx Hy.
      apply in_app_or in Hy. destruct Hy as [Hy|Hy]; [apply Btail; assumption|].
      apply in_app_or in Hy. destruct Hy as [Hy|Hy].
      * refine (front_bound (stamp y) n S convs msgs SS _ _ _ x Hx).
        -- symmetry. exact PS.
        -- intros a Ha. apply Bc; assumption.
        -- destruct restC as [|r restC]; [destruct Hy|]. simpl in LPc. subst n. lia.
      * refine (front_bound (stamp y) n S msgs convs SS _ _ _ x Hx).
        -- symmetry. rewrite Permutation_app_comm. exact PS.
        -- intros a Ha. apply Bm; assumption.
        -- destruct restM as [|r restM]; [destruct Hy|]. simpl in LPm. subst n. lia.
Qed.

End Selection.

Section RecentActivityMerge.
Open Scope monad_scope.

(** C6. The recent-activity handler concatenates the conversations and
    the messages it fetched, sorts the combined rows by timestamp
    descending and keeps the first N. When the two fetched sets are the N
    most recent conversations and the N most recent messages (N the
    positive limit, the rows carrying Dates), the activity it answers is
    a choice of the N most recent rows of both tables together, newest
    first. *)
Theorem recent_activity_merge (w : world) (req : request)
    (C M convs msgs : list row) :
  let N := RecentActivity.limit req in
  0 < N -> Forall dated C -> Forall dated M ->
  mostRecent N C convs -> mostRecent N M msgs ->
  db_connect w = None ->
  db_query w [Connected None]
           RecentActivity.recentConversationsQuery [VNum (Int N)] = Rows convs ->
  db_query w [Connected None;
              Queried RecentActivity.recentConversationsQuery [VNum (Int N)] (Rows convs)]
           RecentActivity.recentMessagesQuery [VNum (Int N)] = Rows msgs ->
  exists activity,
    snd (run (RecentActivity.handler req) w)
      = Return {| status := 200; body := VObj [("activity", ofRows activity)] |}
    /\ activity = slice0 (sort (RecentActivity.byTimestampDesc w) (convs ++ msgs)%list) N
    /\ mostRecent N (C ++ M) activity.
Proof.
  intros N HN DC DM HC HM Hc Q1 Q2.
  exists (RecentActivity.merge w N convs msgs).
  split; [| split; [reflexivity | apply merge_most_recent; assumption]].
  unfold RecentActivity.handler. exec. rewrite Hc. exec.
  fold N. rewrite Q1. exec. rewrite Q2. reflexivity.
Qed.

End RecentActivityMerge.

Section Answers.
Open Scope monad_scope.














End Answers.

Section ErrorHandling.
Open Scope monad_scope.





(** The failure that the statement leaves out, the defect of C5: the
    summary read returns no row, the fallback fails once and succeeds
    when the catch block runs it again; the failure is swallowed. *)
Example swallowed_fallback_failure :
  let run_ := run (handle GetDashboardStats {| query := [] |}) flakyFallbackWorld in
  firstFailure (fst run_) = Some "deadlock detected"
  /\ executions DashboardStats.conversationStatsFallbackQuery (fst run_) = 2%nat
  /\ exists resp, snd run_ = Return resp /\ status resp = 200.
Proof.
  cbv zeta. split; [vm_compute; reflexivity|]. split; [vm_compute; reflexivity|].
  eexists. split; [vm_compute; reflexivity | reflexivity].
Qed.

(** A conversation that does not exist and whose messages cannot be
    read is a 500, with the message of that failure. *)
Example unknown_conversation_with_unreadable_messages :
  snd (run (handle (GetConversationDetails "77") {| query := [] |}) unreadableMessagesWorld)
  = Return (serverError "get conversation details" "permission denied for table chat_logs").
Proof. vm_compute. reflexivity. Qed.

Example unknown_handle_is_404 :
  run (handle (GetUserDetails "nobody") {| query := [] |}) idleWorld =
    ([ Connected None;
       Queried byHandleQuery [VStr "@nobody"] (Rows []);
       Ended ],
     Return {| status := 404; body := VObj [("error", VStr "User not found")] |}).
Proof. reflexivity. Qed.

Example unknown_user_id_is_404 :
  snd (run (handle (GetUserDetails "999") {| query := [] |}) idleWorld) =
    Return {| status := 404; body := VObj [("error", VStr "User not found")] |}.
Proof. reflexivity. Qed.

Example unknown_conversation_is_404 :
  snd (run (handle (GetConversationDetails "77") {| query := [] |}) idleWorld) =
    Return {| status := 404; body := VObj [("error", VStr "Conversation not found")] |}.
Proof. reflexivity. Qed.

Example refused_connection_is_500 :
  run (handle GetUsers {| query := [] |}) refusingWorld =
    ([ Connected (Some "connect ECONNREFUSED");
       Logged "[get users] connect ECONNREFUSED";
       Ended ],
     Return (serverError "get users" "connect ECONNREFUSED")).
Proof. reflexivity. Qed.

End ErrorHandling.

Section Fallback.
Open Scope monad_scope.

Ltac fallback_leaf :=
  cbv zeta; repeat split; intros;
  repeat match goal with
         | H : nth_error _ _ = Some _ |- _ =>
             cbn [nth_error] in H;
             first [ discriminate H | inversion H; subst; clear H ]
         end;
  try reflexivity; vm_compute; reflexivity.

(** X1. How often the fallback aggregation runs, by what the summary read
    (the operation after connecting and the four aggregate queries)
    returned: never after a row; once after a failure; once after no row
    when the fallback succeeds, and twice after no row when the first
    fallback fails. *)
Lemma fallback_executions (req : request) (w : world) :
  let tr := fst (run (DashboardStats.handler req) w) in
  let fallback := DashboardStats.conversationStatsFallbackQuery in
  (forall t v r rows,
      nth_error tr 5 = Some (Queried t v (Rows (r :: rows))) ->
      t = DashboardStats.conversationStatsQuery /\ executions fallback tr = 0%nat)
  /\ (forall t v e,
      nth_error tr 5 = Some (Queried t v (Failed e)) ->
      t = DashboardStats.conversationStatsQuery /\ executions fallback tr = 1%nat)
  /\ (forall t v t' v' rows,
      nth_error tr 5 = Some (Queried t v (Rows [])) ->
      nth_error tr 6 = Some (Queried t' v' (Rows rows)) ->
      t = DashboardStats.conversationStatsQuery /\ t' = fallback
      /\ executions fallback tr = 1%nat)
  /\ (forall t v t' v' e,
      nth_error tr 5 = Some (Queried t v (Rows [])) ->
      nth_error tr 6 = Some (Queried t' v' (Failed e)) ->
      t = DashboardStats.conversationStatsQuery /\ t' = fallback
      /\ executions fallback tr = 2%nat).
Proof.
  unfold DashboardStats.handler.
  run_all; fallback_leaf.
Qed.

(** C5 at the failing input: the summary relation is empty and the
    fallback aggregation fails; the fallback is executed twice (in the
    else branch, and again in the catch block its failure lands in)
    before the handler answers 500. *)
Theorem fallback_runs_twice_after_empty_summary :
  let result := run (DashboardStats.handler {| query := [] |}) emptySummaryWorld in
  executions DashboardStats.conversationStatsFallbackQuery (fst result) = 2%nat
  /\ texts (fst result) =
       [ DashboardStats.userCountQuery; DashboardStats.genderStatsQuery;
         DashboardStats.messageStatsQuery; DashboardStats.dailyMessagesQuery;
         DashboardStats.conversationStatsQuery;
         DashboardStats.conversationStatsFallbackQuery;
         DashboardStats.conversationStatsFallbackQuery ]
  /\ snd result
     = Return (serverError "dashboard stats" "column message_count does not exist").
Proof. cbv zeta. repeat split; vm_compute; reflexivity. Qed.

End Fallback.

Section QueryText.
Open Scope monad_scope.

Lemma analytics_texts (req : request) (w : world) :
  db_connect w = None ->
  texts (fst (run (AnalyticsUsage.handler req) w)) =
    [ AnalyticsUsage.userGrowthQuery;
      AnalyticsUsage.conversationsQuery (AnalyticsUsage.days req);
      AnalyticsUsage.messagesQuery (AnalyticsUsage.days req);
      AnalyticsUsage.activeUsersQuery (AnalyticsUsage.days req) ].
Proof.
  intros Hc. unfold AnalyticsUsage.handler. exec. rewrite Hc.
  run_all; reflexivity.
Qed.

(** C8 at the failing input: the usage analytics handler writes the
    requested number of days into the text of three of its queries, so
    days=7 and days=30 send different query texts. *)
Theorem analytics_text_varies_with_days :
  let week := {| query := [("days", "7")] |} in
  let month := {| query := [("days", "30")] |} in
  (forall req w, db_connect w = None ->
     texts (fst (run (AnalyticsUsage.handler req) w)) =
       [ AnalyticsUsage.userGrowthQuery;
         AnalyticsUsage.conversationsQuery (AnalyticsUsage.days req);
         AnalyticsUsage.messagesQuery (AnalyticsUsage.days req);
         AnalyticsUsage.activeUsersQuery (AnalyticsUsage.days req) ])
  /\ AnalyticsUsage.days week = 7 /\ AnalyticsUsage.days month = 30
  /\ includes (AnalyticsUsage.conversationsQuery (AnalyticsUsage.days month))
              "INTERVAL '30 days'" = true
  /\ includes (AnalyticsUsage.conversationsQuery (AnalyticsUsage.days week))
              "INTERVAL '7 days'" = true
  /\ String.eqb (AnalyticsUsage.conversationsQuery (AnalyticsUsage.days week))
                (AnalyticsUsage.conversationsQuery (AnalyticsUsage.days month)) = false
  /\ String.eqb (AnalyticsUsage.messagesQuery (AnalyticsUsage.days week))
                (AnalyticsUsage.messagesQuery (AnalyticsUsage.days month)) = false
  /\ String.eqb (AnalyticsUsage.activeUsersQuery (AnalyticsUsage.days week))
                (AnalyticsUsage.activeUsersQuery (AnalyticsUsage.days month)) = false
  /\ texts (fst (run (AnalyticsUsage.handler week) idleWorld))
     <> texts (fst (run (AnalyticsUsage.handler month) idleWorld)).
Proof.
  cbv zeta. split; [exact analytics_texts|].
  repeat (split; [vm_compute; reflexivity|]).
  rewrite !analytics_texts by reflexivity.
  intros H.
  apply (f_equal (fun l => String.eqb (nth 1 l "") (AnalyticsUsage.conversationsQuery 30)))
    in H.
  vm_compute in H. discriminate H.
Qed.

Ltac texts_leaf Hc :=
  exec; rewrite Hc; run_all; reflexivity.

Lemma users_sent (req : request) (w : world) :
  db_connect w = None ->
  texts (fst (run (Users.handler req) w)) =
    let '(whereClause, _, paramIndex) :=
      Users.filters (orEmpty (req_query req "search")) (orEmpty (req_query req "gender")) in
    [ Users.countQuery whereClause; Users.usersQuery whereClause paramIndex ].
Proof.
  intros Hc. unfold Users.handler.
  destruct (Users.filters _ _) as [[whereClause queryParams] paramIndex].
  texts_leaf Hc.
Qed.

Lemma conversations_sent (req : request) (w : world) :
  db_connect w = None ->
  texts (fst (run (Conversations.handler req) w)) =
    let '(whereClause, _, paramIndex) :=
      Conversations.filters (orEmpty (req_query req "status"))
                            (orEmpty (req_query req "search")) in
    [ Conversations.countQuery whereClause;
      Conversations.conversationsQuery whereClause paramIndex ].
Proof.
  intros Hc. unfold Conversations.handler.
  destruct (Conversations.filters _ _) as [[whereClause queryParams] paramIndex].
  texts_leaf Hc.
Qed.

Lemma messages_sent (req : request) (w : world) :
  db_connect w = None ->
  texts (fst (run (Messages.handler req) w)) =
    let '(whereClause, _, paramIndex) :=
      Messages.filters (orEmpty (req_query req "conversation_id"))
                       (orEmpty (req_query req "user_id"))
                       (orEmpty (req_query req "search"))
                       (orEmpty (req_query req "date_from"))
                       (orEmpty (req_query req "date_to")) in
    [ Messages.countQuery whereClause; Messages.messagesQuery whereClause paramIndex ].
Proof.
  intros Hc. unfold Messages.handler.
  destruct (Messages.filters _ _ _ _ _) as [[whereClause queryParams] paramIndex].
  texts_leaf Hc.
Qed.

Lemma conversation_details_sent (conversationId : string) (req : request) (w : world) :
  db_connect w = None ->
  texts (fst (run (ConversationDetails.handler conversationId req) w)) =
    [ ConversationDetails.conversationQuery; ConversationDetails.messagesQuery ].
Proof. intros Hc. unfold ConversationDetails.handler. texts_leaf Hc. Qed.

Lemma user_conversations_sent (userId : string) (req : request) (w : world) :
  db_connect w = None ->
  texts (fst (run (UserConversations.handler userId req) w)) =
    [ UserConversations.conversationsQuery; UserConversations.countQuery ].
Proof. intros Hc. unfold UserConversations.handler. texts_leaf Hc. Qed.

Lemma search_users_sent (q : string) (req : request) (w : world) :
  db_connect w = None ->
  texts (fst (run (SearchUsers.handler q req) w)) = [ SearchUsers.searchQuery ].
Proof. intros Hc. unfold SearchUsers.handler. texts_leaf Hc. Qed.

Lemma recent_activity_sent (req : request) (w : world) :
  db_connect w = None ->
  texts (fst (run (RecentActivity.handler req) w)) =
    [ RecentActivity.recentConversationsQuery; RecentActivity.recentMessagesQuery ].
Proof. intros Hc. unfold RecentActivity.handler. texts_leaf Hc. Qed.

Ltac flags_tac :=
  repeat match goal with
         | H : nonEmpty ?a = nonEmpty ?b |- _ =>
             destruct (nonEmpty a); destruct (nonEmpty b); try discriminate H; clear H
         end;
  reflexivity.

Lemma users_text_by_flags (s1 g1 s2 g2 : string) :
  nonEmpty s1 = nonEmpty s2 -> nonEmpty g1 = nonEmpty g2 ->
  (let '(whereClause, _, paramIndex) := Users.filters s1 g1 in
   [ Users.countQuery whereClause; Users.usersQuery whereClause paramIndex ])
  = (let '(whereClause, _, paramIndex) := Users.filters s2 g2 in
     [ Users.countQuery whereClause; Users.usersQuery whereClause paramIndex ]).
Proof. intros H1 H2. unfold Users.filters. flags_tac. Qed.

Lemma conversations_text_by_flags (s1 g1 s2 g2 : string) :
  nonEmpty s1 = nonEmpty s2 -> nonEmpty g1 = nonEmpty g2 ->
  (let '(whereClause, _, paramIndex) := Conversations.filters s1 g1 in
   [ Conversations.countQuery whereClause;
     Conversations.conversationsQuery whereClause paramIndex ])
  = (let '(whereClause, _, paramIndex) := Conversations.filters s2 g2 in
     [ Conversations.countQuery whereClause;
       Conversations.conversationsQuery whereClause paramIndex ]).
Proof. intros H1 H2. unfold Conversations.filters. flags_tac. Qed.

Lemma messages_text_by_flags (c1 u1 s1 f1 t1 c2 u2 s2 f2 t2 : string) :
  nonEmpty c1 = nonEmpty c2 -> nonEmpty u1 = nonEmpty u2 ->
  nonEmpty s1 = nonEmpty s2 -> nonEmpty f1 = nonEmpty f2 ->
  nonEmpty t1 = nonEmpty t2 ->
  (let '(whereClause, _, paramIndex) := Messages.filters c1 u1 s1 f1 t1 in
   [ Messages.countQuery whereClause; Messages.messagesQuery whereClause paramIndex ])
  = (let '(whereClause, _, paramIndex) := Messages.filters c2 u2 s2 f2 t2 in
     [ Messages.countQuery whereClause; Messages.messagesQuery whereClause paramIndex ]).
Proof. intros H1 H2 H3 H4 H5. unfold Messages.filters. flags_tac. Qed.

(** X2. Apart from the day count of the usage analytics, request values stay
    out of the query text: two requests to the same list, detail-list or
    search endpoint that activate the same filters send the same query
    strings, whatever the values of their filters, page, limit and path
    parameters. *)
Theorem query_text_independent_of_values
    (r1 r2 : route) (req1 req2 : request) (w1 w2 : world) :
  sameBatchEndpoint r1 r2 = true -> sameFilters req1 req2 ->
  db_connect w1 = None -> db_connect w2 = None ->
  texts (fst (run (handle r1 req1) w1)) = texts (fst (run (handle r2 req2) w2)).
Proof.
  intros HR HF H1 H2.
  destruct r1, r2; try discriminate HR; simpl handle.
  - rewrite (users_sent req1 w1 H1), (users_sent req2 w2 H2).
    apply users_text_by_flags; apply HF.
  - rewrite (conversations_sent req1 w1 H1), (conversations_sent req2 w2 H2).
    apply conversations_text_by_flags; apply HF.
  - rewrite !conversation_details_sent by assumption. reflexivity.
  - rewrite (messages_sent req1 w1 H1), (messages_sent req2 w2 H2).
    apply messages_text_by_flags; apply HF.
  - rewrite !user_conversations_sent by assumption. reflexivity.
  - rewrite !search_users_sent by assumption. reflexivity.
  - rewrite !recent_activity_sent by assumption. reflexivity.
Qed.

Lemma same_filters_example :
  sameFilters {| query := [("search", "alice"); ("page", "1")] |}
              {| query := [("search", "bob"); ("page", "7")] |}.
Proof.
  intros k. unfold req_query. simpl.
  destruct (String.eqb k "search"); [reflexivity|].
  destruct (String.eqb k "page"); reflexivity.
Defined.

(** X2 on two searches of the user list. *)
Lemma query_text_of_alice_and_bob :
  texts (fst (run (handle GetUsers {| query := [("search", "alice"); ("page", "1")] |})
                  idleWorld))
  = texts (fst (run (handle GetUsers {| query := [("search", "bob"); ("page", "7")] |})
                    femaleWorld)).
Proof.
  apply (query_text_independent_of_values GetUsers GetUsers
           {| query := [("search", "alice"); ("page", "1")] |}
           {| query := [("search", "bob"); ("page", "7")] |}
           idleWorld femaleWorld);
    [ reflexivity | exact same_filters_example | reflexivity | reflexivity ].
Defined.


End QueryText.

Section ActivityExample.

Lemma mostRecent_whole (N : Z) (l : list row) :
  newestFirst l -> Z.of_nat (List.length l) <= N -> mostRecent N l l.
Proof.
  intros S L. split; [exact S | split; [lia|]].
  exists []. rewrite app_nil_r. split; [apply Permutation_refl | intros x y _ []].
Qed.

Ltac dated_tac := repeat constructor; eexists; reflexivity.

Ltac newest_tac := repeat constructor; vm_compute; discriminate.

(** C6 on the example of the spec: conversations at T3, T2, T1 and
    messages at T4, T0, T-1 with limit 4. *)
Lemma recent_activity_of_three_and_three :
  exists activity,
    snd (run (RecentActivity.handler {| query := [("limit", "4")] |}) activityWorld)
      = Return {| status := 200; body := VObj [("activity", ofRows activity)] |}
    /\ activity
       = slice0 (sort (RecentActivity.byTimestampDesc activityWorld)
                      (threeConversations ++ threeMessages)%list)
                (RecentActivity.limit {| query := [("limit", "4")] |})
    /\ mostRecent (RecentActivity.limit {| query := [("limit", "4")] |})
                  (threeConversations ++ threeMessages) activity.
Proof.
  apply (recent_activity_merge activityWorld {| query := [("limit", "4")] |}
           threeConversations threeMessages threeConversations threeMessages).
  - reflexivity.
  - dated_tac.
  - dated_tac.
  - apply mostRecent_whole; [newest_tac | vm_compute; discriminate].
  - apply mostRecent_whole; [newest_tac | vm_compute; discriminate].
  - reflexivity.
  - reflexivity.
  - reflexivity.
Defined.

Example recent_activity_spec_example :
  RecentActivity.merge activityWorld 4 threeConversations threeMessages =
    [ activityRow "message" 3 6000;
      activityRow "conversation" 3 5000;
      activityRow "conversation" 2 4000;
      activityRow "conversation" 1 3000 ].
Proof. vm_compute. reflexivity. Qed.

End ActivityExample.

(* ================================================================== *)
(** * Beyond the contract: what else the code shows                    *)
(* ================================================================== *)

Import Observe.

Section Decimal.

Lemma string_of_uint_digits (d : Decimal.uint) :
  decimalDigits (NilEmpty.string_of_uint d) = true
  /\ spanDigits 10 (NilEmpty.string_of_uint d) = (digitsOf d, EmptyString).
Proof.
  induction d as [|d [ID IS]|d [ID IS]|d [ID IS]|d [ID IS]|d [ID IS]|d [ID IS]
                  |d [ID IS]|d [ID IS]|d [ID IS]|d [ID IS]];
    [split; reflexivity | ..];
    (split;
     [ exact ID
     | cbn [NilEmpty.string_of_uint spanDigits digitsOf];
       match goal with
       | |- context [radixDigit 10 ?c] =>
           let v := eval vm_compute in (radixDigit 10 c) in
           change (radixDigit 10 c) with v
       end; cbv iota; rewrite IS; reflexivity ]).
Qed.

Lemma digitsOf_acc (d : Decimal.uint) (p : positive) :
  fold_left (fun acc x => acc * 10 + x) (digitsOf d) (Zpos p) = Zpos (Pos.of_uint_acc d p).
Proof.
  revert p. induction d; intros p; cbn [digitsOf fold_left Pos.of_uint_acc];
    [reflexivity | ..];
    match goal with
    | |- fold_left _ _ ?a = Zpos (Pos.of_uint_acc _ ?q) =>
        replace a with (Zpos q) by lia
    end; apply IHd.
Qed.

Lemma digitsOf_value (d : Decimal.uint) :
  digitsValue 10 (digitsOf d) = Z.of_N (Pos.of_uint d).
Proof.
  unfold digitsValue.
  induction d; cbn [digitsOf fold_left Pos.of_uint]; [reflexivity | exact IHd | ..];
    match goal with
    | |- fold_left _ _ ?a = Z.of_N (Npos (Pos.of_uint_acc _ ?q)) =>
        change a with (Zpos q)
    end; apply digitsOf_acc.
Qed.



End Decimal.

Section Counters.
Open Scope monad_scope.





End Counters.

Section Logging.
Open Scope monad_scope.

Ltac logged_leaf :=
  eexists; split; [reflexivity|];
  first [ left; eexists; split; reflexivity
        | right; split; [intros H; discriminate H | reflexivity] ].

(** X4. What a handler writes to the console: one line,
    "[context] message", exactly when it answers 500, with the context
    and the message of the response body; nothing when it answers 200 or
    404. *)
Theorem failures_logged_once (r : route) (req : request) (w : world) :
  exists resp,
    snd (run (handle r req) w) = Return resp
    /\ ((exists m, resp = serverError (context r) m
                   /\ logs (fst (run (handle r req) w)) = ["[" ++ context r ++ "] " ++ m])
        \/ (status resp <> 500 /\ logs (fst (run (handle r req) w)) = [])).
Proof.
  destruct r as [| |identifier| |conversationId| |userId|q| |];
    cbn [handle context].
  - unfold DashboardStats.handler. run_all; logged_leaf.
  - unfold Users.handler.
    destruct (Users.filters _ _) as [[whereClause queryParams] paramIndex].
    run_all; logged_leaf.
  - unfold UserDetails.handler.
    destruct (UserDetails.resolve identifier) as [text param].
    run_all; logged_leaf.
  - unfold Conversations.handler.
    destruct (Conversations.filters _ _) as [[whereClause queryParams] paramIndex].
    run_all; logged_leaf.
  - unfold ConversationDetails.handler. run_all; logged_leaf.
  - unfold Messages.handler.
    destruct (Messages.filters _ _ _ _ _) as [[whereClause queryParams] paramIndex].
    run_all; logged_leaf.
  - unfold UserConversations.handler. run_all; logged_leaf.
  - unfold SearchUsers.handler. run_all; logged_leaf.
  - unfold RecentActivity.handler. run_all; logged_leaf.
  - unfold AnalyticsUsage.handler. run_all; logged_leaf.
Qed.

(** X5. When connecting fails, no handler sends a query: it logs the
    failure, ends the client and answers 500 with the message of the
    connection error. *)
Theorem refused_connection_sends_no_query (r : route) (req : request) (w : world)
    (e : string) :
  db_connect w = Some e ->
  run (handle r req) w =
    ([ Connected (Some e); Logged ("[" ++ context r ++ "] " ++ e); Ended ],
     Return (serverError (context r) e)).
Proof.
  intros Hc. destruct (handlers_scoped r req) as (body & E & _). rewrite E.
  unfold scoped. exec. rewrite Hc. reflexivity.
Qed.

Lemma refused_connection_of_messages :
  db_connect refusingWorld = Some "connect ECONNREFUSED"
  /\ run (handle GetMessages {| query := [("page", "2")] |}) refusingWorld =
       ([ Connected (Some "connect ECONNREFUSED");
          Logged "[get messages] connect ECONNREFUSED"; Ended ],
        Return (serverError "get messages" "connect ECONNREFUSED")).
Proof.
  split; [reflexivity|].
  exact (refused_connection_sends_no_query GetMessages {| query := [("page", "2")] |}
           refusingWorld "connect ECONNREFUSED" eq_refl).
Defined.

Ltac count_leaf := cbn [texts List.length In]; auto 10.

(** X6. How many queries a handler executes on an open connection,
    whatever the database answers: the list handlers, the conversation
    lookup and the activity feed always two, the usage analytics always
    four and the search one, since a failed query of a batch does not
    stop the others; the user lookup one (no row, or a failure) or four;
    the dashboard four to seven. *)
Theorem queries_per_request (r : route) (req : request) (w : world) :
  db_connect w = None ->
  In (List.length (texts (fst (run (handle r req) w)))) (queryCounts r).
Proof.
  intros Hc.
  destruct r as [| |identifier| |conversationId| |userId|q| |];
    cbn [handle queryCounts].
  - unfold DashboardStats.handler. exec. rewrite Hc. run_all; count_leaf.
  - rewrite (users_sent req w Hc).
    destruct (Users.filters _ _) as [[whereClause queryParams] paramIndex]. count_leaf.
  - unfold UserDetails.handler.
    destruct (UserDetails.resolve identifier) as [text param].
    exec. rewrite Hc. run_all; count_leaf.
  - rewrite (conversations_sent req w Hc).
    destruct (Conversations.filters _ _) as [[whereClause queryParams] paramIndex].
    count_leaf.
  - rewrite (conversation_details_sent conversationId req w Hc). count_leaf.
  - rewrite (messages_sent req w Hc).
    destruct (Messages.filters _ _ _ _ _) as [[whereClause queryParams] paramIndex].
    count_leaf.
  - rewrite (user_conversations_sent userId req w Hc). count_leaf.
  - rewrite (search_users_sent q req w Hc). count_leaf.
  - rewrite (recent_activity_sent req w Hc). count_leaf.
  - rewrite (analytics_texts req w Hc). count_leaf.
Qed.

Lemma queries_per_request_of_idle_dashboard :
  db_connect idleWorld = None
  /\ In (List.length (texts (fst (run (handle GetDashboardStats {| query := [] |})
                                      idleWorld))))
        (queryCounts GetDashboardStats).
Proof.
  split; [reflexivity|].
  exact (queries_per_request GetDashboardStats {| query := [] |} idleWorld eq_refl).
Defined.

End Logging.

Section Lookups.
Open Scope monad_scope.

Ltac lookup_leaf :=
  do 4 eexists; split; [reflexivity|];
  unfold notFound, serverError;
  repeat split; intros;
  repeat match goal with
         | H : _ /\ _ |- _ => destruct H
         | H : exists _, _ |- _ => destruct H
         end;
  try discriminate;
  repeat match goal with
         | H : Rows _ = Rows _ |- _ => injection H as H; subst
         | H : Failed _ = Failed _ |- _ => injection H as H; subst
         end;
  try reflexivity; eauto.

(** X7. The conversation lookup on an open connection: the conversation
    query and the messages query are both executed, each with the path
    segment as its one parameter, also when the conversation does not
    exist. The answer is 404 exactly when both queries succeed and the
    conversation query returns no row; it is 200 with the first
    conversation row and all the message rows when both succeed and the
    conversation exists; and a failure of either query, the first one
    winning, gives 500, so a missing conversation whose messages cannot
    be read is a 500 and not a 404. *)
Theorem conversation_lookup_cases (conversationId : string) (req : request) (w : world) :
  db_connect w = None ->
  exists r1 r2 rest resp,
    run (ConversationDetails.handler conversationId req) w =
      (Connected None
       :: Queried ConversationDetails.conversationQuery [VStr conversationId] r1
       :: Queried ConversationDetails.messagesQuery [VStr conversationId] r2
       :: rest,
       Return resp)
    /\ (resp = notFound "Conversation" <-> r1 = Rows [] /\ exists ms, r2 = Rows ms)
    /\ (forall c cs ms, r1 = Rows (c :: cs) -> r2 = Rows ms ->
          resp = {| status := 200;
                    body := VObj [ ("conversation", ofRow c); ("messages", ofRows ms) ] |})
    /\ (forall e, r1 = Failed e ->
          resp = serverError "get conversation details" e)
    /\ (forall rows e, r1 = Rows rows -> r2 = Failed e ->
          resp = serverError "get conversation details" e).
Proof.
  intros Hc. unfold ConversationDetails.handler. exec. rewrite Hc.
  run_all; lookup_leaf.
Qed.

Lemma conversation_lookup_of_idle_world :
  db_connect idleWorld = None
  /\ exists r1 r2 rest resp,
       run (ConversationDetails.handler "77" {| query := [] |}) idleWorld =
         (Connected None
          :: Queried ConversationDetails.conversationQuery [VStr "77"] r1
          :: Queried ConversationDetails.messagesQuery [VStr "77"] r2
          :: rest,
          Return resp).
Proof.
  split; [reflexivity|].
  destruct (conversation_lookup_cases "77" {| query := [] |} idleWorld eq_refl)
    as (r1 & r2 & rest & resp & E & _).
  exists r1, r2, rest, resp. exact E.
Defined.

Ltac follow_leaf :=
  cbv zeta; split; intros;
  repeat match goal with
         | H : nth_error _ _ = Some _ |- _ =>
             cbn [nth_error] in H;
             first [ discriminate H | inversion H; subst; clear H ]
         end;
  try reflexivity;
  do 4 eexists; (split; [reflexivity|]);
  intros resp E S; injection E as <-;
  first [ discriminate S | reflexivity ].

(** X8. The user lookup after the user query. When the query returns no
    row, nothing else is asked of the database: the trace is the
    connection, that one query and the end. When it returns rows, the
    three follow-up queries are all executed, each with the [user_id]
    column of the first row as its one parameter (not the identifier of
    the request), and a 200 answer carries that first row as [user]. *)
Theorem user_lookup_follow_up (identifier : string) (req : request) (w : world) :
  let result := run (UserDetails.handler identifier req) w in
  (forall t v, nth_error (fst result) 1 = Some (Queried t v (Rows [])) ->
     fst result = [Connected None; Queried t v (Rows []); Ended])
  /\ (forall t v user others,
        nth_error (fst result) 1 = Some (Queried t v (Rows (user :: others))) ->
        exists r1 r2 r3 rest,
          fst result =
            Connected None
            :: Queried t v (Rows (user :: others))
            :: Queried UserDetails.conversationCountQuery
                       [ofField (lookup "user_id" user)] r1
            :: Queried UserDetails.messageCountQuery
                       [ofField (lookup "user_id" user)] r2
            :: Queried UserDetails.recentConversationsQuery
                       [ofField (lookup "user_id" user)] r3
            :: rest
          /\ forall resp, snd result = Return resp -> status resp = 200 ->
               path ["user"] (body resp) = Some (ofRow user)).
Proof.
  unfold UserDetails.handler.
  destruct (UserDetails.resolve identifier) as [text param].
  run_all; follow_leaf.
Qed.

End Lookups.

Section MissingRows.
Open Scope monad_scope.

Ltac missing_leaf :=
  cbv zeta; eexists; (split; [reflexivity|]);
  repeat split; intros;
  repeat match goal with
         | H : nth_error _ _ = Some _ |- _ =>
             cbn [nth_error] in H;
             first [ discriminate H | inversion H; subst; clear H ]
         | H : firstFailure _ = None |- _ =>
             cbn [firstFailure] in H; first [ discriminate H | clear H ]
         | H : status _ = 200 |- _ =>
             cbn [status] in H; first [ discriminate H | clear H ]
         end;
  try reflexivity.

(** X9. Query results without rows in the dashboard aggregator (the
    operations of its trace are, in order: the connection, the user
    count, the gender, message and daily aggregates, the summary read,
    then the fallback when it runs). An empty user count is a 500, a
    TypeError on [total_users] when no query failed; an empty fallback
    result is a 500, a TypeError on [total_conversations] when the user
    count has a row; but empty message statistics are tolerated: a 200
    answer then reports 0 messages and 0 unique senders. *)
Theorem dashboard_missing_rows (req : request) (w : world) :
  let tr := fst (run (DashboardStats.handler req) w) in
  exists resp,
    snd (run (DashboardStats.handler req) w) = Return resp
    /\ (forall t v, nth_error tr 1 = Some (Queried t v (Rows [])) ->
          status resp = 500
          /\ (firstFailure tr = None ->
              resp = serverError "dashboard stats"
                       "Cannot read properties of undefined (reading 'total_users')"))
    /\ (forall t v, nth_error tr 3 = Some (Queried t v (Rows [])) ->
          status resp = 200 ->
          path ["messages"; "total"] (body resp) = Some (VNum (Int 0))
          /\ path ["messages"; "uniqueSenders"] (body resp) = Some (VNum (Int 0)))
    /\ (forall t v t' v' u us,
          nth_error tr 1 = Some (Queried t v (Rows (u :: us))) ->
          nth_error tr 6 = Some (Queried t' v' (Rows []))
          \/ nth_error tr 7 = Some (Queried t' v' (Rows [])) ->
          t' = DashboardStats.conversationStatsFallbackQuery
          /\ resp = serverError "dashboard stats"
                      "Cannot read properties of undefined (reading 'total_conversations')").
Proof.
  unfold DashboardStats.handler.
  run_all; missing_leaf;
    match goal with
    | H : _ \/ _ |- _ =>
        destruct H as [H|H]; cbn [nth_error] in H;
        first [ discriminate H | inversion H; subst; clear H ]; reflexivity
    end.
Qed.

End MissingRows.

Section Feed.

Variable w : world.

Lemma insert_split (a : row) (l : list row) :
  exists l1 l2,
    l = (l1 ++ l2)%list
    /\ insert (RecentActivity.byTimestampDesc w) a l = (l1 ++ a :: l2)%list
    /\ Forall (fun b => after (RecentActivity.byTimestampDesc w) a b = true) l1.
Proof.
  induction l as [|b l IH]; simpl.
  - exists [], []. auto.
  - destruct (after (RecentActivity.byTimestampDesc w) a b) eqn:E.
    + destruct IH as (l1 & l2 & E1 & E2 & F).
      exists (b :: l1), l2. simpl. rewrite <- E1, E2. auto.
    + exists [], (b :: l). auto.
Qed.

Lemma filter_insert (t : Z) (a : row) (l : list row) :
  dated a -> Forall dated l ->
  filter (fun r => stamp r =? t) (insert (RecentActivity.byTimestampDesc w) a l)
  = filter (fun r => stamp r =? t) (a :: l).
Proof.
  intros Da Dl.
  destruct (insert_split a l) as (l1 & l2 & E1 & E2 & F).
  rewrite E2, E1. simpl. rewrite !filter_app. simpl.
  destruct (stamp a =? t) eqn:Et; [|reflexivity].
  apply Z.eqb_eq in Et.
  assert (N : filter (fun r => stamp r =? t) l1 = []).
  { subst l. apply Forall_app in Dl. destruct Dl as (D1 & _).
    clear E2. induction l1 as [|b l1 IH]; [reflexivity|].
    inversion F as [|? ? Hb F']; subst. inversion D1 as [|? ? Db D1']; subst.
    rewrite (after_dated w a b Da Db) in Hb. apply Z.ltb_lt in Hb.
    simpl. replace (stamp b =? stamp a) with false by (symmetry; apply Z.eqb_neq; lia).
    apply IH; assumption. }
  rewrite N. reflexivity.
Qed.

Lemma filter_sort (t : Z) (l : list row) :
  Forall dated l ->
  filter (fun r => stamp r =? t) (sort (RecentActivity.byTimestampDesc w) l)
  = filter (fun r => stamp r =? t) l.
Proof.
  induction l as [|a l IH]; intros D; [reflexivity|].
  inversion D as [|? ? Da Dl]; subst.
  cbn [sort]. rewrite filter_insert.
  - simpl. rewrite (IH Dl). reflexivity.
  - exact Da.
  - eapply Permutation_Forall; [apply sort_perm | exact Dl].
Qed.

Lemma filter_firstn {A} (p : A -> bool) (n : nat) (l : list A) :
  exists m, filter p (firstn n l) = firstn m (filter p l).
Proof.
  revert n. induction l as [|a l IH]; intros [|n]; simpl;
    try (exists 0%nat; reflexivity).
  destruct (IH n) as (m & E). destruct (p a).
  - exists (S m). simpl. rewrite E. reflexivity.
  - exists m. exact E.
Qed.

Lemma slice0_firstn {A} (l : list A) (finish : Z) :
  exists k, slice0 l finish = firstn k l.
Proof. unfold slice0. eexists. reflexivity. Qed.

(** X10. The activity feed keeps the order in which rows were fetched
    among rows of the same instant: in the answer, the rows with a given
    timestamp are an initial part of the fetched conversations with that
    timestamp, in their order, followed by the fetched messages with
    that timestamp, in theirs (the sort is stable and the conversations
    are concatenated first); before the cut to the limit, all of them. *)
Theorem equal_timestamps_keep_fetch_order (limit t : Z) (convs msgs : list row) :
  Forall dated convs -> Forall dated msgs ->
  let same := filter (fun r => stamp r =? t) in
  same (sort (RecentActivity.byTimestampDesc w) (convs ++ msgs)%list)
    = (same convs ++ same msgs)%list
  /\ exists m, same (RecentActivity.merge w limit convs msgs)
               = firstn m (same convs ++ same msgs)%list.
Proof.
  intros Dc Dm same. subst same. cbv beta.
  assert (E : filter (fun r => stamp r =? t)
                (sort (RecentActivity.byTimestampDesc w) (convs ++ msgs)%list)
              = (filter (fun r => stamp r =? t) convs
                 ++ filter (fun r => stamp r =? t) msgs)%list).
  { rewrite filter_sort by (apply Forall_app; split; assumption).
    apply filter_app. }
  split; [exact E|].
  unfold RecentActivity.merge.
  destruct (slice0_firstn (sort (RecentActivity.byTimestampDesc w) (convs ++ msgs)%list)
              limit) as (k & ->).
  destruct (filter_firstn (fun r => stamp r =? t) k
              (sort (RecentActivity.byTimestampDesc w) (convs ++ msgs)%list)) as (m & ->).
  exists m. rewrite E. reflexivity.
Qed.

(** X11. The activity feed neither invents nor duplicates rows, whatever
    the rows hold in their timestamp column and whatever the limit: the
    answer and the rows cut off are together a rearrangement of the
    fetched conversations and messages. With a limit that is not
    negative the answer has [min(limit, fetched)] rows; a negative limit
    cuts that many rows off the end instead. *)
Theorem activity_feed_keeps_rows (limit : Z) (convs msgs : list row) :
  let out := RecentActivity.merge w limit convs msgs in
  let fetched := Z.of_nat (List.length convs + List.length msgs) in
  (exists rest, Permutation (convs ++ msgs) (out ++ rest))
  /\ (0 <= limit -> Z.of_nat (List.length out) = Z.min limit fetched)
  /\ (limit < 0 -> Z.of_nat (List.length out) = Z.max (fetched + limit) 0).
Proof.
  cbv zeta. unfold RecentActivity.merge, slice0.
  set (S := sort (RecentActivity.byTimestampDesc w) (convs ++ msgs)%list).
  assert (L : List.length S = (List.length convs + List.length msgs)%nat).
  { rewrite <- length_app. symmetry. apply Permutation_length. apply sort_perm. }
  split; [| split].
  - eexists. rewrite firstn_skipn. apply sort_perm.
  - intros H. replace (limit <? 0) with false by (symmetry; apply Z.ltb_ge; lia).
    rewrite length_firstn, L. lia.
  - intros H. replace (limit <? 0) with true by (symmetry; apply Z.ltb_lt; lia).
    rewrite length_firstn, L. lia.
Qed.

End Feed.

Section FeedExample.

Lemma same_instant_of_two_and_two :
  let convs := [activityRow "conversation" 1 5000; activityRow "conversation" 2 5000] in
  let msgs := [activityRow "message" 7 5000; activityRow "message" 8 6000] in
  Forall dated convs /\ Forall dated msgs
  /\ RecentActivity.merge idleWorld 3 convs msgs
     = [ activityRow "message" 8 6000;
         activityRow "conversation" 1 5000; activityRow "conversation" 2 5000 ]
  /\ exists m, filter (fun r => stamp r =? 5000) (RecentActivity.merge idleWorld 3 convs msgs)
               = firstn m (filter (fun r => stamp r =? 5000) convs
                           ++ filter (fun r => stamp r =? 5000) msgs)%list.
Proof.
  cbv zeta.
  assert (Dc : Forall dated [activityRow "conversation" 1 5000;
                             activityRow "conversation" 2 5000])
    by (repeat constructor; eexists; reflexivity).
  assert (Dm : Forall dated [activityRow "message" 7 5000; activityRow "message" 8 6000])
    by (repeat constructor; eexists; reflexivity).
  split; [exact Dc|]. split; [exact Dm|]. split; [vm_compute; reflexivity|].
  exact (proj2 (equal_timestamps_keep_fetch_order idleWorld 3 5000 _ _ Dc Dm)).
Defined.

End FeedExample.

Section Remaining.
Open Scope monad_scope.

Lemma hasNext_positive (page limit t : Z) :
  0 < limit ->
  lessThan page (Math_ceil_quot (Some t) limit) = ((page - 1) * limit + limit <? t).
Proof.
  intros Hl. assert (Hne : limit <> 0) by lia.
  rewrite (ceil_quot_nonzero t limit Hne). simpl.
  destruct (ceilDiv_bounds t limit Hne) as (B & _). specialize (B Hl).
  destruct (page <? ceilDiv t limit) eqn:E; symmetry.
  - apply Z.ltb_lt in E. apply Z.ltb_lt. nia.
  - apply Z.ltb_ge in E. apply Z.ltb_ge. nia.
Qed.

Lemma hasPrev_positive (page limit : Z) :
  0 < limit -> (1 <? page) = (0 <? (page - 1) * limit).
Proof.
  intros Hl. destruct (1 <? page) eqn:E; symmetry.
  - apply Z.ltb_lt in E. apply Z.ltb_lt. nia.
  - apply Z.ltb_ge in E. apply Z.ltb_ge. nia.
Qed.

Lemma paged_summary (rowsKey totalKey : string) (rows : list row)
    (page limit : Z) (total : option Z) (t : Z) :
  In (rowsKey, totalKey)
     [ ("users", "totalUsers"); ("conversations", "totalConversations");
       ("messages", "totalMessages") ] ->
  let doc := pagedBody rowsKey totalKey rows page limit total in
  path ["pagination"; totalKey] doc = Some (VNum (Int t)) ->
  0 < limit ->
  path ["pagination"; "hasNext"] doc = Some (VBool ((page - 1) * limit + limit <? t))
  /\ path ["pagination"; "hasPrev"] doc = Some (VBool (0 <? (page - 1) * limit))
  /\ path ["pagination"; "totalPages"] doc = Some (VNum (Int (ceilDiv t limit)))
  /\ (ceilDiv t limit - 1) * limit < t <= ceilDiv t limit * limit.
Proof.
  intros HIn doc Ht Hl. subst doc.
  assert (Hne : limit <> 0) by lia.
  assert (E : total = Some t).
  { simpl in HIn.
    repeat (destruct HIn as [K|HIn];
            [ injection K as <- <-; vm_compute in Ht;
              destruct total; [injection Ht as ->; reflexivity | discriminate Ht] |]).
    destruct HIn. }
  subst total.
  rewrite <- (hasNext_positive page limit t Hl), <- (hasPrev_positive page limit Hl).
  rewrite <- (ceil_quot_nonzero t limit Hne).
  destruct (ceilDiv_bounds t limit Hne) as (B & _). specialize (B Hl).
  simpl in HIn.
  repeat (destruct HIn as [K|HIn];
          [ injection K as <- <-; repeat split; try reflexivity; apply B |]).
  destruct HIn.
Qed.

(** X12. What the pagination summary means for a positive page size.
    When a paginated handler answers 200 with total [t], with
    [offset = (page - 1) * limit] the offset it sent to the database:
    [hasNext] is true exactly when rows remain after this page
    ([offset + limit < t]), [hasPrev] is true exactly when the offset is
    positive, and [totalPages] is the number [n] of pages of [limit] rows
    that hold [t] rows: [(n - 1) * limit < t <= n * limit]. *)
Theorem has_next_means_rows_remain (r : route) (req : request) (w : world)
    (totalKey : string) (page limit t : Z) (resp : response) :
  pagination r req = Some (totalKey, page, limit) ->
  snd (run (handle r req) w) = Return resp ->
  status resp = 200 ->
  path ["pagination"; totalKey] (body resp) = Some (VNum (Int t)) ->
  0 < limit ->
  path ["pagination"; "hasNext"] (body resp)
    = Some (VBool ((page - 1) * limit + limit <? t))
  /\ path ["pagination"; "hasPrev"] (body resp) = Some (VBool (0 <? (page - 1) * limit))
  /\ path ["pagination"; "totalPages"] (body resp) = Some (VNum (Int (ceilDiv t limit)))
  /\ (ceilDiv t limit - 1) * limit < t <= ceilDiv t limit * limit.
Proof.
  intros Hp Hr Hs Ht Hl.
  destruct r as [| |identifier| |conversationId| |userId|q| |];
    cbn [pagination] in Hp; try discriminate Hp;
    injection Hp as <- <- <-; cbn [handle] in Hr.
  - destruct (users_answer req w) as (resp' & E & A & _).
    rewrite E in Hr. injection Hr as ->.
    destruct (A Hs) as (? & ? & ? & ? & ? & ? & rows & _ & ->).
    cbn [body] in *. eapply paged_summary; eauto. simpl. auto.
  - destruct (conversations_answer req w) as (resp' & E & A & _).
    rewrite E in Hr. injection Hr as ->.
    destruct (A Hs) as (? & ? & ? & ? & ? & ? & rows & _ & ->).
    cbn [body] in *. eapply paged_summary; eauto. simpl. auto.
  - destruct (messages_answer req w) as (resp' & E & A & _).
    rewrite E in Hr. injection Hr as ->.
    destruct (A Hs) as (? & ? & ? & ? & ? & ? & rows & _ & ->).
    cbn [body] in *. eapply paged_summary; eauto. simpl. auto.
  - destruct (user_conversations_answer userId req w) as (resp' & E & A & _).
    rewrite E in Hr. injection Hr as ->.
    destruct (A Hs) as (? & ? & ? & ? & ? & ? & rows & _ & ->).
    cbn [body] in *. eapply paged_summary; eauto. simpl. auto.
Qed.

Lemma has_next_on_second_page_of_25 :
  let req := {| query := [("page", "2"); ("limit", "10"); ("gender", "female")] |} in
  exists resp,
    pagination GetUsers req = Some ("totalUsers", 2, 10)
    /\ snd (run (handle GetUsers req) femaleWorld) = Return resp
    /\ status resp = 200
    /\ path ["pagination"; "totalUsers"] (body resp) = Some (VNum (Int 25))
    /\ 0 < 10
    /\ path ["pagination"; "hasNext"] (body resp) = Some (VBool true).
Proof.
  cbv zeta. eexists.
  assert (Hp : pagination GetUsers
                 {| query := [("page", "2"); ("limit", "10"); ("gender", "female")] |}
               = Some ("totalUsers", 2, 10)) by (vm_compute; reflexivity).
  split; [exact Hp|].
  assert (Hr : snd (run (handle GetUsers
                      {| query := [("page", "2"); ("limit", "10"); ("gender", "female")] |})
                      femaleWorld)
               = Return {| status := 200;
                           body := pagedBody "users" "totalUsers" (tenRows 11) 2 10
                                             (Some 25) |})
    by (vm_compute; reflexivity).
  split; [exact Hr|]. split; [reflexivity|].
  assert (Ht : path ["pagination"; "totalUsers"]
                 (body {| status := 200;
                          body := pagedBody "users" "totalUsers" (tenRows 11) 2 10
                                            (Some 25) |})
               = Some (VNum (Int 25))) by (vm_compute; reflexivity).
  split; [exact Ht|].
  assert (Hl : 0 < 10) by lia.
  split; [exact Hl|].
  exact (proj1 (has_next_means_rows_remain GetUsers _ femaleWorld "totalUsers" 2 10 25 _
                  Hp Hr eq_refl Ht Hl)).
Defined.

End Remaining.

Section Lenient.

Lemma spanDigits_stops (ds : string) (c : ascii) (rest : string) :
  decimalDigits ds = true -> radixDigit 10 c = None ->
  spanDigits 10 (ds ++ String c rest) = (fst (spanDigits 10 ds), String c rest).
Proof.
  intros H Hc. induction ds as [|c0 r0 IH]; simpl.
  - rewrite Hc. reflexivity.
  - simpl in H. destruct (radixDigit 10 c0) as [d|]; [|discriminate].
    rewrite (IH H). destruct (spanDigits 10 r0). reflexivity.
Qed.

Lemma prefix2_stops (p1 p2 c0 c : ascii) (r0 rest : string) :
  decimalDigits r0 = true -> (forall d, radixDigit 10 p2 <> Some d) -> c <> p2 ->
  startsWith (String c0 (r0 ++ String c rest)) (String p1 (String p2 EmptyString)) = false.
Proof.
  intros H P N. unfold startsWith. simpl.
  destruct (ascii_dec p1 c0); [|reflexivity].
  destruct r0 as [|c2 r2]; simpl.
  - destruct (ascii_dec p2 c) as [->|]; [contradiction | reflexivity].
  - destruct (ascii_dec p2 c2) as [->|]; [|reflexivity].
    simpl in H. destruct (radixDigit 10 c2) as [z|]; [|discriminate].
    exfalso. exact (P z eq_refl).
Qed.

Lemma parseInt_stops (ds : string) (c : ascii) (rest : string) :
  ds <> EmptyString -> decimalDigits ds = true ->
  radixDigit 10 c = None -> c <> "x"%char -> c <> "X"%char ->
  parseInt (ds ++ String c rest) = parseInt ds.
Proof.
  intros N H Hc Nx NX.
  destruct (digits_are_numeric ds N H) as (_ & ds' & E & ->).
  pose proof (spanDigits_stops ds c rest H Hc) as S. rewrite E in S. simpl in S.
  destruct ds as [|c0 r0]; [contradiction|].
  assert (H' := H). simpl in H'.
  destruct (radixDigit 10 c0) as [d|] eqn:D; [|discriminate].
  destruct (digit_is_special_free c0 d D)
    as (W & _ & _ & _ & _ & _ & _ & Nplus & Nminus & _).
  change ((String c0 r0 ++ String c rest)%string)
    with (String c0 (r0 ++ String c rest)) in *.
  assert (Px : startsWith (String c0 (r0 ++ String c rest)) "0x" = false)
    by (apply prefix2_stops; [exact H' | intros ?; discriminate | exact Nx]).
  assert (PX : startsWith (String c0 (r0 ++ String c rest)) "0X" = false)
    by (apply prefix2_stops; [exact H' | intros ?; discriminate | exact NX]).
  assert (Pp : startsWith (String c0 (r0 ++ String c rest)) "+" = false)
    by (apply prefix1_digits; auto).
  assert (Pm : startsWith (String c0 (r0 ++ String c rest)) "-" = false)
    by (apply prefix1_digits; auto).
  unfold parseInt.
  assert (Ets : trimStart (String c0 (r0 ++ String c rest))
                = String c0 (r0 ++ String c rest)) by (simpl; rewrite W; reflexivity).
  rewrite Ets, Pp, Pm. cbn [orb]. rewrite Px, PX. cbn [orb]. rewrite S.
  destruct ds' as [|d0 ds'].
  - simpl in E. rewrite D in E. destruct (spanDigits 10 r0); discriminate E.
  - f_equal; lia.
Qed.

Lemma spanDigits_nonneg (s : string) (l : list Z) (r : string) :
  spanDigits 10 s = (l, r) -> Forall (fun d => 0 <= d) l.
Proof.
  revert l r. induction s as [|c0 r0 IH]; simpl; intros l r Hs.
  - injection Hs as <- <-. constructor.
  - destruct (radixDigit 10 c0) as [d|] eqn:D.
    + destruct (spanDigits 10 r0) as [l0 r1] eqn:S0. injection Hs as <- <-.
      constructor; [| eapply IH; reflexivity].
      revert D. destruct c0 as [[] [] [] [] [] [] [] []]; vm_compute; intros D;
        try discriminate D; injection D as <-; discriminate.
    + injection Hs as <- <-. constructor.
Qed.

Lemma digitsValue_nonneg (l : list Z) :
  Forall (fun d => 0 <= d) l -> 0 <= digitsValue 10 l.
Proof.
  unfold digitsValue.
  assert (G : forall l a, 0 <= a -> Forall (fun d => 0 <= d) l ->
                0 <= fold_left (fun acc d => acc * 10 + d) l a).
  { clear l. induction l as [|d l IH]; simpl; intros a Ha F; [exact Ha|].
    inversion F; subst. apply IH; [lia | assumption]. }
  apply G. lia.
Qed.

Lemma spelled_decimal (z : Z) : 0 <= z -> spelled (decimal z) = z.
Proof.
  intros H. unfold spelled, decimal. destruct z as [|p|p]; [reflexivity | | lia].
  cbn [Z.to_int NilZero.string_of_int].
  pose proof (Unsigned.to_uint_nonnil p) as NN.
  assert (E : NilZero.string_of_uint (Pos.to_uint p)
              = NilEmpty.string_of_uint (Pos.to_uint p))
    by (destruct (Pos.to_uint p); [contradiction | reflexivity ..]).
  rewrite E. destruct (string_of_uint_digits (Pos.to_uint p)) as (_ & ->).
  cbn [fst]. rewrite digitsOf_value, Unsigned.of_to. reflexivity.
Qed.

(** X13. Numbers of the request are read leniently: a value that starts
    with decimal digits and goes on with other text (one that does not
    make it a hexadecimal literal) is read as the number [n] that its
    digits spell, for [n] up to 2^53 (beyond, the code reads the nearest
    double); the rest is ignored, not rejected. So the page, the page
    size and the number of days of such a request are [n], or the
    default when [n] is 0, and the sender filter of the messages and the
    user of the conversation list are those of the digits alone. *)
Theorem numbers_ignore_trailing_text (ds : string) (c : ascii) (rest : string) :
  ds <> EmptyString -> decimalDigits ds = true -> spelled ds <= 2 ^ 53 ->
  radixDigit 10 c = None -> c <> "x"%char -> c <> "X"%char ->
  let noisy := ds ++ String c rest in
  let n := spelled ds in
  0 <= n
  /\ (forall z, 0 <= z -> ds = decimal z -> n = z)
  /\ parseInt ds = Some n
  /\ parseInt noisy = Some n
  /\ (forall req, req_query req "page" = Some noisy ->
        Users.page req = orElse (Some n) 1
        /\ Conversations.page req = orElse (Some n) 1
        /\ Messages.page req = orElse (Some n) 1
        /\ UserConversations.page req = orElse (Some n) 1)
  /\ (forall req, req_query req "limit" = Some noisy ->
        Users.limit req = orElse (Some n) 20
        /\ Conversations.limit req = orElse (Some n) 20
        /\ Messages.limit req = orElse (Some n) 50
        /\ UserConversations.limit req = orElse (Some n) 20
        /\ SearchUsers.limit req = orElse (Some n) 10
        /\ RecentActivity.limit req = orElse (Some n) 20)
  /\ (forall req, req_query req "days" = Some noisy ->
        AnalyticsUsage.days req = orElse (Some n) 7)
  /\ (forall conversationId search dateFrom dateTo,
        Messages.filters conversationId noisy search dateFrom dateTo
        = Messages.filters conversationId ds search dateFrom dateTo)
  /\ (forall req, UserConversations.handler noisy req = UserConversations.handler ds req).
Proof.
  intros N H _ Hc Nx NX noisy n.
  pose proof (parseInt_stops ds c rest N H Hc Nx NX) as E. fold noisy in E.
  assert (Hn : nonEmpty noisy = nonEmpty ds).
  { subst noisy. destruct ds; [contradiction | reflexivity]. }
  destruct (digits_are_numeric ds N H) as (_ & ds' & S & P).
  assert (En : n = digitsValue 10 ds') by (subst n; unfold spelled; rewrite S; reflexivity).
  rewrite <- En in P. rewrite P in E.
  split; [| split; [| split; [| split; [| split; [| split; [| split; [| split]]]]]]].
  - rewrite En. apply digitsValue_nonneg. exact (spanDigits_nonneg ds ds' EmptyString S).
  - intros z Hz ->. subst n. apply spelled_decimal. exact Hz.
  - exact P.
  - exact E.
  - intros req Q. unfold Users.page, Conversations.page, Messages.page,
      UserConversations.page. rewrite Q. cbn [parseIntQuery]. rewrite E. auto.
  - intros req Q. unfold Users.limit, Conversations.limit, Messages.limit,
      UserConversations.limit, SearchUsers.limit, RecentActivity.limit.
    rewrite Q. cbn [parseIntQuery]. rewrite E. repeat split.
  - intros req Q. unfold AnalyticsUsage.days. rewrite Q. cbn [parseIntQuery].
    rewrite E. reflexivity.
  - intros. unfold Messages.filters. rewrite Hn, E, P. reflexivity.
  - intros req. unfold UserConversations.handler. rewrite E, P. reflexivity.
Qed.

Lemma second_page_with_trailing_text :
  let req := {| query := [("page", "2abc"); ("limit", "10.9")] |} in
  "2" <> EmptyString /\ decimalDigits "2" = true /\ spelled "2" <= 2 ^ 53
  /\ radixDigit 10 "a" = None
  /\ Users.page req = 2 /\ Users.limit req = 10.
Proof.
  cbv zeta.
  assert (N : "2" <> EmptyString) by discriminate.
  assert (B : spelled "2" <= 2 ^ 53) by (vm_compute; discriminate).
  assert (Nx : "a"%char <> "x"%char) by discriminate.
  assert (NX : "a"%char <> "X"%char) by discriminate.
  split; [exact N|]. split; [reflexivity|]. split; [exact B|]. split; [reflexivity|].
  split; [| reflexivity].
  destruct (numbers_ignore_trailing_text "2" "a" "bc" N eq_refl B eq_refl Nx NX)
    as (_ & _ & _ & _ & P & _).
  exact (proj1 (P {| query := [("page", "2abc"); ("limit", "10.9")] |} eq_refl)).
Defined.

End Lenient.

Section Routing.
Import Router.

Variable decodeURIComponent : string -> option string.

Lemma split_segment (s : string) : slashFree s = true -> split "/" s = [s].
Proof.
  induction s as [|c r IH]; simpl; [reflexivity|].
  destruct (Ascii.eqb c "/"); [discriminate|]. simpl.
  intros H. rewrite (IH H). reflexivity.
Qed.

Lemma split_then (s rest : string) :
  slashFree s = true -> split "/" (s ++ String "/" rest) = s :: split "/" rest.
Proof.
  induction s as [|c r IH]; simpl; [reflexivity|].
  destruct (Ascii.eqb c "/"); [discriminate|]. simpl.
  intros H. rewrite (IH H). reflexivity.
Qed.

Lemma dropLastEmpty_segment (l : list string) (q : string) :
  isEmpty q = false -> dropLastEmpty (l ++ [q]) = (l ++ [q])%list.
Proof.
  intros H. induction l as [|a l IH].
  - destruct q; [discriminate H | reflexivity].
  - change ((a :: l) ++ [q])%list with (a :: (l ++ [q]))%list.
    cbn [dropLastEmpty]. rewrite IH.
    destruct a; [destruct l|]; reflexivity.
Qed.

Ltac literal_tac :=
  repeat match goal with
         | |- context [String.eqb (lowercase ?q) ?x] =>
             is_var q;
             lazymatch x with
             | context [lower] =>
                 let v := eval vm_compute in x in change x with v
             end
         end.

(** X14. The search route is registered after the route of the
    conversations of a user, which matches the same paths when the last
    segment is "conversations" (in any case of its letters): a search
    for that text never reaches the search handler, it is served as the
    conversation list of the user "search". Every other search path
    /api/users/search/q reaches the search handler with q decoded. *)
Theorem search_route_is_shadowed (q q' : string) :
  isSegment q = true ->
  decodeURIComponent "search" = Some "search" ->
  decodeURIComponent q = Some q' ->
  dispatch decodeURIComponent ("/api/users/search/" ++ q)
  = Routed (if String.eqb (lowercase q) "conversations"
            then GetUserConversations "search" else GetSearchUsers q').
Proof.
  intros Hq Ds Dq. unfold isSegment in Hq. apply andb_prop in Hq. destruct Hq as (Hn & Hs).
  apply negb_true_iff in Hn.
  unfold dispatch, pathSegments.
  cbn [append split Ascii.eqb Bool.eqb]. rewrite (split_segment q Hs).
  change ["api"; "users"; "search"; q] with (["api"; "users"; "search"] ++ [q])%list.
  rewrite (dropLastEmpty_segment _ q Hn).
  unfold routes. simpl. rewrite Hn. literal_tac.
  destruct (String.eqb (lowercase q) "conversations");
    cbn [decodeAll]; rewrite ?Ds, ?Dq; reflexivity.
Qed.

(** X15. Apart from that, every registered path reaches its own handler:
    the six fixed paths, and the three paths with a parameter for every
    segment that decodes, the user lookup also for the segment "search"
    and the conversation list of a user also for the user "search". *)
Theorem registered_paths_reach_their_handlers :
  dispatch decodeURIComponent "/api/dashboard/stats" = Routed GetDashboardStats
  /\ dispatch decodeURIComponent "/api/users" = Routed GetUsers
  /\ dispatch decodeURIComponent "/api/conversations" = Routed GetConversations
  /\ dispatch decodeURIComponent "/api/messages" = Routed GetMessages
  /\ dispatch decodeURIComponent "/api/activity/recent" = Routed GetRecentActivity
  /\ dispatch decodeURIComponent "/api/analytics/usage" = Routed GetAnalyticsUsage
  /\ (forall s s', isSegment s = true -> decodeURIComponent s = Some s' ->
        dispatch decodeURIComponent ("/api/users/" ++ s) = Routed (GetUserDetails s')
        /\ dispatch decodeURIComponent ("/api/conversations/" ++ s)
           = Routed (GetConversationDetails s')
        /\ dispatch decodeURIComponent ("/api/users/" ++ s ++ "/conversations")
           = Routed (GetUserConversations s')).
Proof.
  repeat (split; [reflexivity|]).
  intros s s' Hq Ds. unfold isSegment in Hq. apply andb_prop in Hq.
  destruct Hq as (Hn & Hs). apply negb_true_iff in Hn.
  unfold dispatch, pathSegments. repeat split.
  - cbn [append split Ascii.eqb Bool.eqb]. rewrite (split_segment s Hs).
    change ["api"; "users"; s] with (["api"; "users"] ++ [s])%list.
    rewrite (dropLastEmpty_segment _ s Hn).
    unfold routes. simpl. rewrite Hn. cbn [decodeAll]. rewrite Ds. reflexivity.
  - cbn [append split Ascii.eqb Bool.eqb]. rewrite (split_segment s Hs).
    change ["api"; "conversations"; s] with (["api"; "conversations"] ++ [s])%list.
    rewrite (dropLastEmpty_segment _ s Hn).
    unfold routes. simpl. rewrite Hn. cbn [decodeAll]. rewrite Ds. reflexivity.
  - cbn [append split Ascii.eqb Bool.eqb]. rewrite (split_then s _ Hs).
    cbn [split Ascii.eqb Bool.eqb].
    change ["api"; "users"; s; "conversations"]
      with (["api"; "users"; s] ++ ["conversations"])%list.
    rewrite (dropLastEmpty_segment _ "conversations" eq_refl).
    unfold routes. simpl. rewrite Hn. cbn [decodeAll]. rewrite Ds. reflexivity.
Qed.

End Routing.

Section RoutingExample.
Import Router.

Lemma search_for_conversations :
  isSegment "Conversations" = true
  /\ dispatch Some "/api/users/search/Conversations"
     = Routed (GetUserConversations "search")
  /\ parseInt "search" = None.
Proof.
  split; [reflexivity|]. split; [| reflexivity].
  exact (search_route_is_shadowed Some "Conversations" "Conversations"
           eq_refl eq_refl eq_refl).
Defined.

End RoutingExample.

Section ReadOnly.
Open Scope monad_scope.

Ltac select_leaf :=
  cbn [texts];
  repeat (apply Forall_cons; [vm_compute; reflexivity|]); apply Forall_nil.

(** X16. The API only reads: every statement that any handler sends to
    the database, on every path and for every request, is a SELECT. *)
Theorem only_select_statements (r : route) (req : request) (w : world) :
  Forall (fun text => isSelect text = true) (texts (fst (run (handle r req) w))).
Proof.
  destruct r as [| |identifier| |conversationId| |userId|q| |]; cbn [handle].
  - unfold DashboardStats.handler. run_all; select_leaf.
  - unfold Users.handler.
    destruct (Users.filters _ _) as [[whereClause queryParams] paramIndex].
    run_all; select_leaf.
  - unfold UserDetails.handler, UserDetails.resolve.
    destruct (negb (isNaN identifier)); run_all; select_leaf.
  - unfold Conversations.handler.
    destruct (Conversations.filters _ _) as [[whereClause queryParams] paramIndex].
    run_all; select_leaf.
  - unfold ConversationDetails.handler. run_all; select_leaf.
  - unfold Messages.handler.
    destruct (Messages.filters _ _ _ _ _) as [[whereClause queryParams] paramIndex].
    run_all; select_leaf.
  - unfold UserConversations.handler. run_all; select_leaf.
  - unfold SearchUsers.handler. run_all; select_leaf.
  - unfold RecentActivity.handler. run_all; select_leaf.
  - unfold AnalyticsUsage.handler. run_all; select_leaf.
Qed.

(** X17. The marker of a handle is optional in the user lookup: for a
    segment that is not numeric and does not carry the marker, the
    lookup with the marker prepended is the same computation as the
    lookup without it, by the handle with the marker. *)
Theorem handle_marker_is_optional (name : string) (req : request) :
  isNaN name = true -> startsWith name "@" = false ->
  UserDetails.resolve name = (byHandleQuery, VStr ("@" ++ name))
  /\ UserDetails.resolve ("@" ++ name) = UserDetails.resolve name
  /\ UserDetails.handler ("@" ++ name) req = UserDetails.handler name req.
Proof.
  intros Hn Hm.
  assert (E1 : UserDetails.resolve name = (byHandleQuery, VStr ("@" ++ name)))
    by (rewrite (resolve_handle name Hn), Hm; reflexivity).
  assert (E2 : UserDetails.resolve ("@" ++ name) = UserDetails.resolve name).
  { rewrite E1. rewrite (resolve_handle ("@" ++ name) (isNaN_marker name)).
    destruct name; reflexivity. }
  split; [exact E1|]. split; [exact E2|].
  unfold UserDetails.handler. rewrite E2. reflexivity.
Qed.

Lemma handle_marker_of_alice :
  isNaN "alice" = true /\ startsWith "alice" "@" = false
  /\ UserDetails.handler "@alice" {| query := [] |}
     = UserDetails.handler "alice" {| query := [] |}.
Proof.
  split; [reflexivity|]. split; [reflexivity|].
  exact (proj2 (proj2 (handle_marker_is_optional "alice" {| query := [] |}
                         eq_refl eq_refl))).
Defined.

End ReadOnly.

Section MoreExamples.

Example found_user_id_is_bound :
  map (fun e => match e with Queried _ values _ => values | _ => [] end)
      (fst (run (handle (GetUserDetails "alice") {| query := [] |}) aliceWorld))
  = [ []; [VStr "@alice"]; [VNum (Int 42)]; [VNum (Int 42)]; [VNum (Int 42)]; [] ].
Proof. vm_compute. reflexivity. Qed.

Example empty_user_count_is_500 :
  snd (run (handle GetDashboardStats {| query := [] |}) idleWorld)
  = Return (serverError "dashboard stats"
              "Cannot read properties of undefined (reading 'total_users')").
Proof. vm_compute. reflexivity. Qed.

Example empty_message_statistics_are_zero :
  exists resp,
    snd (run (handle GetDashboardStats {| query := [] |}) silentWorld) = Return resp
    /\ status resp = 200
    /\ path ["messages"; "total"] (body resp) = Some (VNum (Int 0))
    /\ path ["conversations"; "total"] (body resp) = Some (VNum (Int 4)).
Proof. eexists. split; [vm_compute; reflexivity|]. repeat split. Qed.

Example hexadecimal_page :
  Users.page {| query := [("page", "0x10")] |} = 16.
Proof. reflexivity. Qed.

End MoreExamples.

